(** * Smart AI Router: a shallow embedding of [ai_router.py]

    The development follows the layout of the source file: the numeric
    model of Python's [float], the dataclasses, the provider selector,
    the health probe, the model-name mapper, the two streaming
    transports, the non-streaming forwarder, the authentication gate
    and the two request handlers.  Theorems come after the
    definitions. *)

From Stdlib Require Import ZArith Floats.SpecFloat.
From stdpp Require Import gmap strings list pretty.

Set Warnings "-register-all".
Open Scope Z_scope.

(** ** Exceptions

    Python exceptions are values of [exn]; a computation that may raise
    has type [exn + A].  The three [httpx] / [fastapi] classes that the
    source's [except] clauses name are kept apart, every other class is
    told from them by its own constructor. *)

Inductive exn :=
  | ConnectError (msg : string)
  | TimeoutException (msg : string)
  | HTTPException (status_code : Z) (detail : string)
  | IndexError
  | KeyError (key : string)
  | OverflowError
  | ValueError (msg : string)
  | TypeError (msg : string)
  | OtherError (msg : string).

#[global] Instance exn_eq_dec : EqDecision exn.
Proof. solve_decision. Defined.

#[global] Instance exn_ret : MRet (sum exn) := fun _ x => inr x.
#[global] Instance exn_bind : MBind (sum exn) :=
  fun _ _ f m => match m with inl e => inl e | inr x => f x end.

Definition raise {A} (e : exn) : exn + A := inl e.

(** ** Python floats: IEEE 754 binary64 *)

Module PyFloat.

Definition prec : Z := 53.
Definition emax : Z := 1024.

Definition float := spec_float.

#[global] Instance float_eq_dec : EqDecision float.
Proof. unfold float. solve_decision. Defined.

Definition is_finite (f : float) : bool :=
  match f with
  | S754_zero _ | S754_finite _ _ _ => true
  | _ => false
  end.

(** [float(n)] for a Python [int]: round to nearest even, and
    [OverflowError] when the integer is out of range. *)
Definition of_int (n : Z) : exn + float :=
  let f := binary_normalize prec emax n 0 false in
  if is_finite f then inr f else raise OverflowError.

(** An integer literal that is known to fit ([1.0], [2.0], [10.0]). *)
Definition lit (n : Z) : float := binary_normalize prec emax n 0 false.

Definition add : float -> float -> float := SFadd prec emax.
Definition sub : float -> float -> float := SFsub prec emax.
Definition mul : float -> float -> float := SFmul prec emax.
Definition div : float -> float -> float := SFdiv prec emax.

(** [a > b] and [a < b]; both are [False] when either side is NaN. *)
Definition gtb (a b : float) : bool := SFltb b a.
Definition ltb (a b : float) : bool := SFltb a b.

(** The builtin [max(a, b)]: the first argument is kept unless the
    second is strictly greater. *)
Definition max (a b : float) : float := if gtb b a then b else a.

Definition zero : float := S754_zero false.
Definition one : float := lit 1.
Definition two : float := lit 2.
(** The literal [0.1] is the double nearest to one tenth, which is what
    the correctly rounded quotient [1.0 / 10.0] is. *)
Definition tenth : float := div (lit 1) (lit 10).

(** [int(f)]: truncation toward zero; [OverflowError] on an infinity,
    [ValueError] on NaN. *)
Definition to_int (f : float) : exn + Z :=
  match f with
  | S754_zero _ => inr 0
  | S754_finite s m e =>
      let a := if 0 <=? e then Z.shiftl (Z.pos m) e
               else Z.shiftr (Z.pos m) (- e) in
      inr (if s then - a else a)
  | S754_infinity _ => raise OverflowError
  | S754_nan => raise (ValueError "cannot convert float NaN to integer")
  end.

(** The builtin [round(f)]: nearest integer, ties to even. *)
Definition round (f : float) : exn + Z :=
  match f with
  | S754_zero _ => inr 0
  | S754_finite s m e =>
      let a :=
        if 0 <=? e then Z.shiftl (Z.pos m) e
        else
          let q := Z.shiftr (Z.pos m) (- e) in
          let r := Z.pos m - Z.shiftl q (- e) in
          let half := Z.shiftl 1 (- e - 1) in
          if (half <? r) || ((half =? r) && Z.odd q) then q + 1 else q in
      inr (if s then - a else a)
  | S754_infinity _ => raise OverflowError
  | S754_nan => raise (ValueError "cannot convert float NaN to integer")
  end.

End PyFloat.

Abbreviation float := PyFloat.float.

(** A Python number that is either still an [int] or already a [float]
    (the local [weight] of [select_provider] starts as the former). *)
Inductive pynum :=
  | PInt (n : Z)
  | PFloat (f : float).

(** [n * f] for a number [n] and a float [f]: an [int] operand is
    converted first. *)
Definition pynum_mul_float (n : pynum) (f : float) : exn + float :=
  match n with
  | PInt z => x ← PyFloat.of_int z; mret (PyFloat.mul x f)
  | PFloat x => mret (PyFloat.mul x f)
  end.

(** [int(n)] on such a number. *)
Definition pynum_int (n : pynum) : exn + Z :=
  match n with
  | PInt z => mret z
  | PFloat x => PyFloat.to_int x
  end.

(** ** Data model

    [str] and [bytes] values are Rocq strings (sequences of 8-bit
    characters); [.encode()] is the identity on them. *)

Definition bytes := string.

Inductive ProviderStatus := HEALTHY | UNHEALTHY | UNKNOWN.

#[global] Instance ProviderStatus_eq_dec : EqDecision ProviderStatus.
Proof. solve_decision. Defined.

Record AIProvider := mkAIProvider {
  name : string;
  base_url : string;
  api_key : string;
  models : list string;
  weight : Z;
  status : ProviderStatus;
  last_check : float;
  response_time : float;
  error_count : Z
}.

#[global] Instance AIProvider_eq_dec : EqDecision AIProvider.
Proof. solve_decision. Defined.

Definition set_status (s : ProviderStatus) (p : AIProvider) : AIProvider :=
  mkAIProvider (name p) (base_url p) (api_key p) (models p) (weight p)
               s (last_check p) (response_time p) (error_count p).
Definition set_last_check (t : float) (p : AIProvider) : AIProvider :=
  mkAIProvider (name p) (base_url p) (api_key p) (models p) (weight p)
               (status p) t (response_time p) (error_count p).
Definition set_response_time (t : float) (p : AIProvider) : AIProvider :=
  mkAIProvider (name p) (base_url p) (api_key p) (models p) (weight p)
               (status p) (last_check p) t (error_count p).
Definition set_error_count (n : Z) (p : AIProvider) : AIProvider :=
  mkAIProvider (name p) (base_url p) (api_key p) (models p) (weight p)
               (status p) (last_check p) (response_time p) n.

Record UserInfo := mkUserInfo {
  user_id : string;
  user_api_key : string;
  daily_limit : Z;
  requests_today : Z;
  total_requests : Z;
  created_at : string;
  last_request : string;
  is_active : bool
}.

Record ChatRequest := mkChatRequest {
  model : string;
  messages : list (list (string * string));
  max_tokens : option Z;
  temperature : option float;
  stream : option bool;
  x_use_asgi_streaming : option bool
}.

(** The providers of [SmartAIRouter.__init__]. *)
Definition new_provider (n url key : string) (ms : list string) (w : Z)
  : AIProvider :=
  mkAIProvider n url key ms w UNKNOWN PyFloat.zero PyFloat.zero 0.

Definition deepseek : AIProvider :=
  new_provider "deepseek" "http://openai-forward-proxy:8000/deepseek/v1"
    "sk-878a5319c7b14bc48109e19315361b7f"
    ["deepseek-chat"; "deepseek-coder"] 3.
Definition lingyiwanwu : AIProvider :=
  new_provider "lingyiwanwu" "http://openai-forward-proxy:8000/lingyiwanwu/v1"
    "72ebf8a6191e45bab0f646659c8cb121"
    ["yi-34b-chat"; "yi-6b-chat"] 3.
Definition ollama : AIProvider :=
  new_provider "ollama" "http://openai-forward-proxy:8000/ollama/v1"
    "ollama-local-key"
    ["llama3.2"; "qwen2:7b"; "codegemma"] 2.

Definition initial_providers : list AIProvider :=
  [deepseek; lingyiwanwu; ollama].

(** ** Provider selection: [SmartAIRouter.select_provider] *)

(** The filter of step 1. *)
Definition is_healthy_candidate (p : AIProvider) : Prop :=
  status p = HEALTHY ∧ error_count p < 5.

#[global] Instance is_healthy_candidate_dec p : Decision (is_healthy_candidate p).
Proof. unfold is_healthy_candidate. apply _. Defined.

(** The body of the weighting loop for one provider: the value of the
    local [weight] when it reaches [int(weight)]. *)
Definition loop_weight (p : AIProvider) : exn + pynum :=
  let weight0 := PInt (weight p) in
  weight1 ← (if PyFloat.gtb (response_time p) PyFloat.zero then
               let time_factor :=
                 PyFloat.max PyFloat.tenth
                   (PyFloat.sub PyFloat.two (response_time p)) in
               w ← pynum_mul_float weight0 time_factor; mret (PFloat w)
             else mret weight0);
  ec ← PyFloat.of_int (error_count p);
  let error_factor :=
    PyFloat.max PyFloat.tenth
      (PyFloat.sub PyFloat.one (PyFloat.mul ec PyFloat.tenth)) in
  w ← pynum_mul_float weight1 error_factor;
  mret (PFloat w).

(** [[provider] * max(1, int(weight))]. *)
Definition loop_copies (p : AIProvider) : exn + list AIProvider :=
  w ← loop_weight p;
  n ← pynum_int w;
  mret (replicate (Z.to_nat (Z.max 1 n)) p).

(** The [for] loop that fills [weighted_providers]. *)
Fixpoint extend_weighted (weighted_providers : list AIProvider)
    (candidates : list AIProvider) : exn + list AIProvider :=
  match candidates with
  | [] => mret weighted_providers
  | provider :: rest =>
      copies ← loop_copies provider;
      extend_weighted (weighted_providers ++ copies) rest
  end.

(** [random.choice(seq)] is [seq[randbelow(len(seq))]]; the generator's
    draw is the entropy [r] reduced below the length. *)
Definition random_choice {A} (seq : list A) (r : nat) : exn + A :=
  match seq !! (r `mod` length seq)%nat with
  | Some x => mret x
  | None => raise IndexError
  end.

Definition healthy_providers (providers : list AIProvider) : list AIProvider :=
  let healthy := filter is_healthy_candidate providers in
  match healthy with
  | [] => providers
  | _ => healthy
  end.

Definition model_compatible_providers (request_model : string)
    (healthy : list AIProvider) : list AIProvider :=
  let compatible := filter (fun p => request_model ∈ models p) healthy in
  match compatible with
  | [] => healthy
  | _ => compatible
  end.

Definition select_provider (providers : list AIProvider)
    (request : ChatRequest) (r : nat) : exn + option AIProvider :=
  let healthy := healthy_providers providers in
  let compatible := model_compatible_providers (model request) healthy in
  match compatible with
  | [] => mret None
  | _ =>
      weighted_providers ← extend_weighted [] compatible;
      selected ← random_choice weighted_providers r;
      mret (Some selected)
  end.

(** The weight and the pool as the specification words them. *)
Definition spec_effective_weight (p : AIProvider) : exn + float :=
  w ← PyFloat.of_int (weight p);
  ec ← PyFloat.of_int (error_count p);
  let latency_factor :=
    PyFloat.max PyFloat.tenth (PyFloat.sub PyFloat.two (response_time p)) in
  let error_factor :=
    PyFloat.max PyFloat.tenth
      (PyFloat.sub PyFloat.one (PyFloat.mul PyFloat.tenth ec)) in
  mret (PyFloat.mul (PyFloat.mul w latency_factor) error_factor).

Definition spec_copies (p : AIProvider) : exn + Z :=
  w ← spec_effective_weight p;
  n ← PyFloat.round w;
  mret (Z.max 1 n).

(** The weight as the code computes it, in closed form: the latency
    factor applies only to a positive response time, and the pool takes
    the integer part. *)
Definition effective_weight (p : AIProvider) : exn + float :=
  w ← PyFloat.of_int (weight p);
  ec ← PyFloat.of_int (error_count p);
  let error_factor :=
    PyFloat.max PyFloat.tenth
      (PyFloat.sub PyFloat.one (PyFloat.mul ec PyFloat.tenth)) in
  if PyFloat.gtb (response_time p) PyFloat.zero then
    let latency_factor :=
      PyFloat.max PyFloat.tenth (PyFloat.sub PyFloat.two (response_time p)) in
    mret (PyFloat.mul (PyFloat.mul w latency_factor) error_factor)
  else mret (PyFloat.mul w error_factor).

Definition pool_copies (p : AIProvider) : exn + Z :=
  w ← effective_weight p;
  n ← PyFloat.to_int w;
  mret (Z.max 1 n).

(** ** Health probe: [SmartAIRouter.health_check_provider]

    What one probe meets: the clock reading taken before the request,
    the outcome of [client.post] (a status code, or the exception it
    raised), and the two readings taken afterwards, the one that gives
    the elapsed time and the one stored as [last_check]. *)

Record probe_env := mkProbeEnv {
  probe_start_time : float;
  probe_post : exn + Z;
  probe_response_clock : float;
  probe_check_clock : float
}.

(** [l[0]]. *)
Definition first_item {A} (l : list A) : exn + A :=
  match l with
  | [] => raise IndexError
  | x :: _ => mret x
  end.

Definition health_check_provider (env : probe_env) (provider : AIProvider)
  : AIProvider * bool :=
  let attempt :=
    _ ← first_item (models provider);
    probe_post env in
  match attempt with
  | inr response_status =>
      let provider :=
        set_response_time
          (PyFloat.sub (probe_response_clock env) (probe_start_time env))
          provider in
      let provider := set_last_check (probe_check_clock env) provider in
      if decide (response_status = 200) then
        (set_error_count 0 (set_status HEALTHY provider), true)
      else
        (set_error_count (error_count provider + 1)
           (set_status UNHEALTHY provider), false)
  | inl _ =>
      let provider := set_status UNHEALTHY provider in
      let provider := set_error_count (error_count provider + 1) provider in
      (set_last_check (probe_check_clock env) provider, false)
  end.

(** ** Model names: [map_model_name]

    The method is written out twice in the source, once in each class,
    with the same table. *)

Definition model_mapping : gmap string (gmap string string) :=
  list_to_map
    [ ("gpt-3.5-turbo",
       list_to_map [ ("deepseek", "deepseek-chat");
                     ("lingyiwanwu", "yi-34b-chat");
                     ("ollama", "llama3.2") ]);
      ("gpt-4",
       list_to_map [ ("deepseek", "deepseek-chat");
                     ("lingyiwanwu", "yi-34b-chat");
                     ("ollama", "llama3.2") ]);
      ("code-assistant",
       list_to_map [ ("deepseek", "deepseek-coder");
                     ("lingyiwanwu", "yi-34b-chat");
                     ("ollama", "codegemma") ]) ].

(** [d.get(k, default)] evaluates [default] before the lookup, so
    [provider.models[0]] is read on every branch that mentions it. *)
Definition map_model_name (requested_model : string) (provider : AIProvider)
  : exn + string :=
  match model_mapping !! requested_model with
  | Some translations =>
      fallback ← first_item (models provider);
      mret (default fallback (translations !! name provider))
  | None =>
      if decide (requested_model ∈ models provider) then mret requested_model
      else first_item (models provider)
  end.

(** ** JSON values and the error envelope *)

Inductive json :=
  | JNull
  | JBool (b : bool)
  | JInt (n : Z)
  | JFloat (f : float)
  | JStr (s : string)
  | JList (l : list json)
  | JObj (o : gmap string json).

(** [d[k]] for a JSON value [d]. *)
Definition json_get (k : string) (d : json) : option json :=
  match d with
  | JObj o => o !! k
  | _ => None
  end.

Definition error_envelope (fields : list (string * json)) : json :=
  JObj {[ "error" := JObj (list_to_map fields) ]}.

(** The field [k] of the envelope's ["error"] object. *)
Definition envelope_field (k : string) (envelope : json) : option json :=
  json_get "error" envelope ≫= json_get k.

(** ** Upstream behaviour seen by a streaming call

    [client.stream(...)] either raises on entry, or yields a response:
    its status code, the clock reading taken right after it, what
    [aread()] gives, and what the chunk iterator gives (the chunks, then
    a clean end or an exception). *)

Inductive stream_end :=
  | EndOfStream
  | StreamRaises (e : exn).

Record upstream_response := mkUpstreamResponse {
  up_status_code : Z;
  up_clock : float;
  up_aread : exn + bytes;
  up_chunks : list bytes;
  up_end : stream_end
}.

Inductive upstream :=
  | UpRaises (e : exn)
  | UpResponds (response : upstream_response).

(** Truth value of a [bytes] object. *)
Definition nonempty (b : bytes) : bool :=
  match b with
  | EmptyString => false
  | _ => true
  end.

Definition LF : string := String (Ascii.ascii_of_nat 10) EmptyString.

(** Library functions left uninterpreted: [json.dumps], [str(e)] on an
    exception, [bytes.decode('utf-8', errors='ignore')] and the
    validation done when a [ChatRequest] is built from the request body. *)
Class Library := mkLibrary {
  dumps : json -> string;
  str_exn : exn -> string;
  decode_ignore : bytes -> string;
  parse_chat_request : gmap string json -> exn + ChatRequest
}.

Section Transports.

Context `{Library}.

(** [f'data: {json.dumps(payload)}\n\n'.encode()]. *)
Definition sse_event (payload : json) : bytes :=
  "data: " +:+ dumps payload +:+ LF +:+ LF.

(** *** Buffered-generator transport:
    [SmartAIRouter.forward_request.stream_generator]

    The generator is run to exhaustion by its consumer; the result is
    the provider as the generator leaves it and the items it yielded,
    in order. *)

(** The three [except] clauses of the generator. *)
Definition generator_except (e : exn) (provider : AIProvider)
    (yielded : list bytes) : AIProvider * list bytes :=
  let provider' := set_error_count (error_count provider + 1) provider in
  let error_response :=
    match e with
    | ConnectError _ =>
        error_envelope
          [ ("type", JStr "connection_error");
            ("message", JStr ("Failed to connect to " +:+ name provider
                                +:+ ": " +:+ str_exn e));
            ("provider", JStr (name provider)) ]
    | TimeoutException _ =>
        error_envelope
          [ ("type", JStr "timeout_error");
            ("message", JStr ("Request to " +:+ name provider
                                +:+ " timed out: " +:+ str_exn e));
            ("provider", JStr (name provider)) ]
    | _ =>
        error_envelope
          [ ("type", JStr "stream_error");
            ("message", JStr ("Stream error from " +:+ name provider
                                +:+ ": " +:+ str_exn e));
            ("provider", JStr (name provider)) ]
    end in
  (provider', yielded ++ [sse_event error_response]).

(** The [async for raw_chunk in response.aiter_raw(...)] loop: empty
    chunks are skipped, the others are counted and yielded as they
    are. *)
Fixpoint generator_relay (chunks : list bytes) (chunk_count total_bytes : Z)
    (yielded : list bytes) : Z * Z * list bytes :=
  match chunks with
  | [] => (chunk_count, total_bytes, yielded)
  | raw_chunk :: rest =>
      if nonempty raw_chunk then
        generator_relay rest (chunk_count + 1)
          (total_bytes + Z.of_nat (String.length raw_chunk))
          (yielded ++ [raw_chunk])
      else generator_relay rest chunk_count total_bytes yielded
  end.

Definition stream_generator (start_time : float) (provider : AIProvider)
    (up : upstream) : AIProvider * list bytes :=
  match up with
  | UpRaises e => generator_except e provider []
  | UpResponds response =>
      let connection_time := PyFloat.sub (up_clock response) start_time in
      let provider :=
        set_response_time
          (PyFloat.div (PyFloat.add (response_time provider) connection_time)
                       PyFloat.two)
          provider in
      if decide (up_status_code response ≠ 200) then
        match up_aread response with
        | inl e => generator_except e provider []
        | inr error_text =>
            let error_message := decode_ignore error_text in
            let error_response :=
              error_envelope
                [ ("type", JStr "provider_error");
                  ("code", JInt (up_status_code response));
                  ("message", JStr error_message);
                  ("provider", JStr (name provider)) ] in
            (provider, [sse_event error_response])
        end
      else
        let '(_, _, yielded) := generator_relay (up_chunks response) 0 0 [] in
        match up_end response with
        | StreamRaises e => generator_except e provider yielded
        | EndOfStream =>
            (set_error_count (Z.max 0 (error_count provider - 1)) provider,
             yielded)
        end
  end.

End Transports.

(** *** Direct-relay transport: [LowLevelASGIStreamer]

    The caller's channel is the list of ASGI messages handed to [send],
    in order; [send] itself is taken to accept every message. *)

Inductive asgi_message :=
  | HttpResponseStart (status : Z) (headers : list (bytes * bytes))
  | HttpResponseBody (body : bytes) (more_body : bool).

Module LowLevelASGIStreamer.

Record t := mk {
  request_start_time : float;
  total_bytes_sent : Z;
  chunks_sent : Z;
  connection_id : string;
  is_headers_sent : bool;
  streamer_error_count : Z
}.

(** [__init__]; the identifier is built from the clock and [id(self)]. *)
Definition init (request_start_time : float) (connection_id : string) : t :=
  mk request_start_time 0 0 connection_id false 0.

Definition set_is_headers_sent (b : bool) (self : t) : t :=
  mk (request_start_time self) (total_bytes_sent self) (chunks_sent self)
     (connection_id self) b (streamer_error_count self).
Definition count_error (self : t) : t :=
  mk (request_start_time self) (total_bytes_sent self) (chunks_sent self)
     (connection_id self) (is_headers_sent self)
     (streamer_error_count self + 1).
Definition count_chunk (chunk : bytes) (self : t) : t :=
  mk (request_start_time self)
     (total_bytes_sent self + Z.of_nat (String.length chunk))
     (chunks_sent self + 1)
     (connection_id self) (is_headers_sent self) (streamer_error_count self).

Definition model_mapping : gmap string (gmap string string) :=
  list_to_map
    [ ("gpt-3.5-turbo",
       list_to_map [ ("deepseek", "deepseek-chat");
                     ("lingyiwanwu", "yi-34b-chat");
                     ("ollama", "llama3.2") ]);
      ("gpt-4",
       list_to_map [ ("deepseek", "deepseek-chat");
                     ("lingyiwanwu", "yi-34b-chat");
                     ("ollama", "llama3.2") ]);
      ("code-assistant",
       list_to_map [ ("deepseek", "deepseek-coder");
                     ("lingyiwanwu", "yi-34b-chat");
                     ("ollama", "codegemma") ]) ].

Definition map_model_name (requested_model : string) (provider : AIProvider)
  : exn + string :=
  match model_mapping !! requested_model with
  | Some translations =>
      fallback ← first_item (models provider);
      mret (default fallback (translations !! name provider))
  | None =>
      if decide (requested_model ∈ models provider) then mret requested_model
      else first_item (models provider)
  end.

Section Relay.

Context `{Library}.

Definition _send_error_response (self : t) (error_type message
    provider_name : string) : t * list asgi_message :=
  let '(self, start) :=
    if is_headers_sent self then (self, [])
    else
      (set_is_headers_sent true self,
       [HttpResponseStart 500
          [ ("content-type", "text/event-stream");
            ("x-router-error", error_type);
            ("x-connection-id", connection_id self) ]]) in
  let error_data :=
    error_envelope
      [ ("type", JStr error_type);
        ("message", JStr message);
        ("provider", JStr provider_name);
        ("connection_id", JStr (connection_id self)) ] in
  (self, start ++ [HttpResponseBody (sse_event error_data) false]).

(** The three [except] clauses of [stream_response]; the provider's
    own counter is not touched by them. *)
Definition stream_except (e : exn) (self : t) (provider : AIProvider)
    (sent : list asgi_message) : t * AIProvider * list asgi_message :=
  let self := count_error self in
  let '(self, messages) :=
    match e with
    | ConnectError _ =>
        _send_error_response self "connection_error"
          ("Connection failed: " +:+ str_exn e) (name provider)
    | TimeoutException _ =>
        _send_error_response self "timeout_error"
          ("Request timeout: " +:+ str_exn e) (name provider)
    | _ =>
        _send_error_response self "stream_error"
          ("Stream error: " +:+ str_exn e) (name provider)
    end in
  (self, provider, sent ++ messages).

(** The [async for chunk in response.aiter_bytes(...)] loop. *)
Fixpoint relay (chunks : list bytes) (self : t) (sent : list asgi_message)
    : t * list asgi_message :=
  match chunks with
  | [] => (self, sent)
  | chunk :: rest =>
      if nonempty chunk then
        relay rest (count_chunk chunk self)
              (sent ++ [HttpResponseBody chunk true])
      else relay rest self sent
  end.

Definition stream_response (self : t) (provider : AIProvider)
    (request : ChatRequest) (up : upstream)
    : t * AIProvider * list asgi_message :=
  let sent :=
    [HttpResponseStart 200
       [ ("content-type", "text/event-stream");
         ("cache-control", "no-cache");
         ("connection", "keep-alive");
         ("x-router-provider", name provider);
         ("x-asgi-streaming", "true");
         ("x-router-method", "asgi-parameter-optimized");
         ("x-connection-id", connection_id self) ]] in
  let self := set_is_headers_sent true self in
  match map_model_name (model request) provider with
  | inl e => stream_except e self provider sent
  | inr actual_model =>
      match up with
      | UpRaises e => stream_except e self provider sent
      | UpResponds response =>
          if decide (up_status_code response ≠ 200) then
            match up_aread response with
            | inl e => stream_except e self provider sent
            | inr error_text =>
                let error_message := decode_ignore error_text in
                let error_data :=
                  error_envelope
                    [ ("type", JStr "upstream_error");
                      ("code", JInt (up_status_code response));
                      ("message", JStr error_message);
                      ("provider", JStr (name provider));
                      ("connection_id", JStr (connection_id self)) ] in
                (self, provider,
                 sent ++ [HttpResponseBody (sse_event error_data) false])
            end
          else
            let '(self, sent) := relay (up_chunks response) self sent in
            match up_end response with
            | StreamRaises e => stream_except e self provider sent
            | EndOfStream =>
                (self,
                 set_error_count (Z.max 0 (error_count provider - 1))
                                 provider,
                 sent ++ [HttpResponseBody EmptyString false])
            end
      end
  end.

End Relay.

End LowLevelASGIStreamer.

(** ** Forwarding: [SmartAIRouter.forward_request] *)

(** What a non-streaming [client.post] meets: the response (status,
    [response.text], [response.json()]) or the exception raised, the
    clock reading taken after it and the text of
    [datetime.now().isoformat()]. *)

Record post_response := mkPostResponse {
  post_status_code : Z;
  post_text : string;
  post_json : exn + json
}.

Record post_env := mkPostEnv {
  post_outcome : exn + post_response;
  post_clock : float;
  post_timestamp : string
}.

Definition with_model (actual_model : string) (request : ChatRequest)
  : ChatRequest :=
  mkChatRequest actual_model (messages request) (max_tokens request)
                (temperature request) (stream request)
                (x_use_asgi_streaming request).

(** Truth value of an [Optional[bool]]. *)
Definition truthy (b : option bool) : bool := default false b.

(** What [forward_request] returns: the generator object (not yet
    started; it keeps [start_time] and the request data), or the decoded
    and augmented body. *)
Inductive forwarded :=
  | Generator (start_time : float) (request_data : ChatRequest)
  | Result (result : gmap string json).

Definition router_info (provider : AIProvider) (elapsed : float)
    (timestamp : string) : json :=
  JObj (list_to_map
          [ ("provider", JStr (name provider));
            ("response_time", JFloat elapsed);
            ("timestamp", JStr timestamp);
            ("streaming", JBool false) ]).

Section Forwarding.

Context `{Library}.

(** The inner [try] of the non-streaming branch with its two [except]
    clauses. *)
Definition forward_nonstreaming (start_time : float) (env : post_env)
    (provider : AIProvider) : AIProvider * (exn + gmap string json) :=
  match post_outcome env with
  | inl e =>
      match e with
      | ConnectError _ =>
          (set_error_count (error_count provider + 1) provider,
           raise (HTTPException 502 ("Connection error: " +:+ str_exn e)))
      | TimeoutException _ =>
          (set_error_count (error_count provider + 1) provider,
           raise (HTTPException 504 ("Provider timeout: " +:+ str_exn e)))
      | _ => (provider, raise e)
      end
  | inr response =>
      let elapsed := PyFloat.sub (post_clock env) start_time in
      let provider :=
        set_response_time
          (PyFloat.div (PyFloat.add (response_time provider) elapsed)
                       PyFloat.two)
          provider in
      if decide (post_status_code response = 200) then
        match post_json response with
        | inl e => (provider, raise e)
        | inr (JObj result) =>
            let result :=
              <["_router_info" :=
                  router_info provider elapsed (post_timestamp env)]>
                result in
            (set_error_count (Z.max 0 (error_count provider - 1)) provider,
             mret result)
        | inr _ =>
            (provider,
             raise (TypeError "object does not support item assignment"))
        end
      else
        (set_error_count (error_count provider + 1) provider,
         raise (HTTPException (post_status_code response)
                  ("Provider error: " +:+ post_text response)))
  end.

(** The body of the outer [try]. *)
Definition forward_body (start_time : float) (env : post_env)
    (provider : AIProvider) (request : ChatRequest)
    : AIProvider * (exn + forwarded) :=
  match map_model_name (model request) provider with
  | inl e => (provider, raise e)
  | inr actual_model =>
      let request_data := with_model actual_model request in
      if truthy (stream request) then
        (provider, mret (Generator start_time request_data))
      else
        let '(provider, outcome) :=
          forward_nonstreaming start_time env provider in
        (provider, result ← outcome; mret (Result result))
  end.

(** The outer [except Exception] catches whatever the body raised,
    the [HTTPException]s of the inner clauses included. *)
Definition forward_request (start_time : float) (env : post_env)
    (provider : AIProvider) (request : ChatRequest)
    : AIProvider * (exn + forwarded) :=
  match forward_body start_time env provider request with
  | (provider, inl e) =>
      (set_error_count (error_count provider + 1) provider,
       raise (HTTPException 502 ("Provider error: " +:+ str_exn e)))
  | (provider, inr r) => (provider, mret r)
  end.

End Forwarding.

(** ** Authentication and quota *)

Record auth_config := mkAuthConfig {
  auth_mode : string;
  shared_api_key : string;
  users_db : gmap string UserInfo
}.

(** [UserInfo(user_id=..., api_key=..., daily_limit=...)]: the other
    fields take their defaults, the two timestamps being
    [datetime.now().isoformat()]. *)
Definition new_user (uid key : string) (limit : Z) (now : string) : UserInfo :=
  mkUserInfo uid key limit 0 0 now now true.

Definition verify_api_key (cfg : auth_config) (now : string) (key : string)
  : option UserInfo :=
  if decide (auth_mode cfg = "shared") then
    if decide (key = shared_api_key cfg) then
      Some (new_user "shared_user" key 999999 now)
    else None
  else if decide (auth_mode cfg = "multi_user") then users_db cfg !! key
  else None.

Definition set_requests_today (n : Z) (u : UserInfo) : UserInfo :=
  mkUserInfo (user_id u) (user_api_key u) (daily_limit u) n
             (total_requests u) (created_at u) (last_request u) (is_active u).

(** [today] is [datetime.now().date().isoformat()]. *)
Definition check_quota (today : string) (user_info : UserInfo)
  : UserInfo * bool :=
  let user_info :=
    if decide (String.substring 0 10 (last_request user_info) ≠ today)
    then set_requests_today 0 user_info
    else user_info in
  (user_info, bool_decide (requests_today user_info < daily_limit user_info)).

Definition update_user_stats (now : string) (u : UserInfo) : UserInfo :=
  mkUserInfo (user_id u) (user_api_key u) (daily_limit u)
             (requests_today u + 1) (total_requests u + 1)
             (created_at u) now (is_active u).

(** The record that [check_quota] mutates is the one stored in the
    table when the mode is multi-user, and a fresh one otherwise. *)
Definition store_user (cfg : auth_config) (key : string) (u : UserInfo)
  : auth_config :=
  if decide (auth_mode cfg = "shared") then cfg
  else mkAuthConfig (auth_mode cfg) (shared_api_key cfg)
                    (<[key := u]> (users_db cfg)).

Definition authenticate (cfg : auth_config) (now today : string)
    (key : string) : auth_config * (exn + UserInfo) :=
  match verify_api_key cfg now key with
  | None => (cfg, raise (HTTPException 401 "Invalid API key"))
  | Some user_info =>
      if negb (is_active user_info) then
        (cfg, raise (HTTPException 403 "User account is inactive"))
      else
        let '(user_info, ok) := check_quota today user_info in
        let cfg := store_user cfg key user_info in
        if negb ok then
          (cfg,
           raise (HTTPException 429
                    ("Daily quota exceeded. Limit: "
                       +:+ pretty (daily_limit user_info)
                       +:+ ", Used: " +:+ pretty (requests_today user_info))))
        else (cfg, mret user_info)
  end.

(** ** Router statistics and the request handlers *)

Record RouterStats := mkRouterStats {
  stats_total_requests : Z;
  successful_requests : Z;
  failed_requests : Z;
  provider_usage : gmap string Z
}.

Definition count_total (st : RouterStats) : RouterStats :=
  mkRouterStats (stats_total_requests st + 1) (successful_requests st)
                (failed_requests st) (provider_usage st).
Definition count_successful (st : RouterStats) : RouterStats :=
  mkRouterStats (stats_total_requests st) (successful_requests st + 1)
                (failed_requests st) (provider_usage st).
Definition count_failed (st : RouterStats) : RouterStats :=
  mkRouterStats (stats_total_requests st) (successful_requests st)
                (failed_requests st + 1) (provider_usage st).

(** [stats["provider_usage"][name] += 1]. *)
Definition count_usage (provider_name : string) (st : RouterStats)
  : exn + RouterStats :=
  match provider_usage st !! provider_name with
  | None => raise (KeyError provider_name)
  | Some n =>
      mret (mkRouterStats (stats_total_requests st) (successful_requests st)
              (failed_requests st)
              (<[provider_name := n + 1]> (provider_usage st)))
  end.

(** Truth value of a decoded JSON value. *)
Definition json_truthy (j : json) : bool :=
  match j with
  | JNull => false
  | JBool b => b
  | JInt n => negb (n =? 0)
  | JFloat f => negb (SFeqb f PyFloat.zero)
  | JStr s => nonempty s
  | JList l => match l with [] => false | _ => true end
  | JObj o => negb (bool_decide (o = ∅))
  end.

(** The inbound request as a handler reads it: the outcome of
    [await request.json()] and the [x-use-asgi-streaming] header. *)
Record http_request := mkHttpRequest {
  request_json : exn + gmap string json;
  asgi_header : option string
}.

(** What the handler reads from its surroundings: the handler's own
    [start_time], the timestamp stored by [update_user_stats], the
    entropy of [random.choice], the identifier given to a new streamer,
    and, for [forward_request], its [start_time] and the non-streaming
    upstream. *)
Record handler_env := mkHandlerEnv {
  env_start_time : float;
  env_now : string;
  env_entropy : nat;
  env_connection_id : string;
  env_forward_start_time : float;
  env_post : post_env
}.

(** The response object a handler returns; its body is produced later,
    when the server calls it. *)
Inductive response :=
  | JSONResult (result : gmap string json)
  | EnhancedASGIStreamingResponse (streamer : LowLevelASGIStreamer.t)
      (provider : AIProvider) (chat_request : ChatRequest)
  | ASGIStreamingResponse (streamer : LowLevelASGIStreamer.t)
      (provider : AIProvider) (chat_request : ChatRequest)
  | StreamingResponse (result : forwarded) (provider : AIProvider)
      (headers : list (string * string)).

Definition is_streaming (r : response) : bool :=
  match r with
  | JSONResult _ => false
  | _ => true
  end.

(** What the caller is sent once the response object is run. *)
Inductive caller_view :=
  | JSONBody (result : gmap string json)
  | BodyChunks (chunks : list bytes)
  | ASGIMessages (sent : list asgi_message).

Section Handlers.

Context `{Library}.

(** The four fields the handler adds to [result["_router_info"]]. *)
Definition add_user_info (user_info : UserInfo) (result : gmap string json)
  : exn + gmap string json :=
  let result :=
    match result !! "_router_info" with
    | None => <["_router_info" := JObj ∅]> result
    | Some _ => result
    end in
  match result !! "_router_info" with
  | Some (JObj info) =>
      let info := <["user_id" := JStr (user_id user_info)]> info in
      let info := <["requests_today" := JInt (requests_today user_info)]> info in
      let info := <["daily_limit" := JInt (daily_limit user_info)]> info in
      let info :=
        <["recommendation" :=
            JStr "Use x_use_asgi_streaming: true for optimal streaming"]>
          info in
      mret (<["_router_info" := JObj info]> result)
  | _ => raise (TypeError "object does not support item assignment")
  end.

(** The body of the handler's [try], from the read of the request
    body on. *)
Definition chat_completions_body (st : RouterStats) (user_info : UserInfo)
    (providers : list AIProvider) (request : http_request)
    (env : handler_env)
    : RouterStats * option AIProvider * (exn + response) :=
  match request_json request with
  | inl e => (st, None, raise e)
  | inr request_data =>
      let request_data :=
        match request_data !! "stream" with
        | None => <["stream" := JBool true]> request_data
        | Some _ => request_data
        end in
      let asgi_from_data :=
        default (JBool false) (request_data !! "x_use_asgi_streaming") in
      let asgi_from_header := bool_decide (asgi_header request = Some "true") in
      let use_asgi_streaming := json_truthy asgi_from_data || asgi_from_header in
      match parse_chat_request request_data with
      | inl e => (st, None, raise e)
      | inr chat_request =>
          match select_provider providers chat_request (env_entropy env) with
          | inl e => (st, None, raise e)
          | inr None =>
              (count_failed st, None,
               raise (HTTPException 503 "No available AI providers"))
          | inr (Some provider) =>
              match count_usage (name provider) st with
              | inl e => (st, Some provider, raise e)
              | inr st =>
                  if truthy (stream chat_request) then
                    if use_asgi_streaming then
                      let asgi_streamer :=
                        LowLevelASGIStreamer.init (env_start_time env)
                          (env_connection_id env) in
                      (count_successful st, Some provider,
                       mret (EnhancedASGIStreamingResponse asgi_streamer
                               provider chat_request))
                    else
                      match forward_request (env_forward_start_time env)
                              (env_post env) provider chat_request with
                      | (provider, inr result) =>
                          (count_successful st, Some provider,
                           mret (StreamingResponse result provider
                                   [ ("Cache-Control", "no-cache");
                                     ("Connection", "keep-alive");
                                     ("X-Router-Provider", name provider);
                                     ("X-Router-User", user_id user_info);
                                     ("X-Streaming-Type", "fastapi-improved");
                                     ("X-Router-Recommendation",
                                      "use-asgi-streaming") ]))
                      | (provider, inl e) =>
                          (count_failed st, Some provider,
                           raise (HTTPException 500
                                    ("Streaming setup failed: " +:+ str_exn e)))
                      end
                  else
                    match forward_request (env_forward_start_time env)
                            (env_post env) provider chat_request with
                    | (provider, inr (Result result)) =>
                        match add_user_info user_info result with
                        | inr result =>
                            (count_successful st, Some provider,
                             mret (JSONResult result))
                        | inl e => (count_failed st, Some provider, raise e)
                        end
                    | (provider, inr (Generator _ _)) =>
                        (count_failed st, Some provider,
                         raise (TypeError "argument is not iterable"))
                    | (provider, inl e) =>
                        (count_failed st, Some provider, raise e)
                    end
              end
          end
      end
  end.

(** [POST /v1/chat/completions], after [authenticate] has returned
    [user_info]. *)
Definition chat_completions (st : RouterStats) (user_info : UserInfo)
    (providers : list AIProvider) (request : http_request)
    (env : handler_env)
    : RouterStats * UserInfo * option AIProvider * (exn + response) :=
  let st := count_total st in
  let user_info := update_user_stats (env_now env) user_info in
  let '(st, selected, outcome) :=
    chat_completions_body st user_info providers request env in
  match outcome with
  | inr r => (st, user_info, selected, mret r)
  | inl (HTTPException code detail) =>
      (count_failed st, user_info, selected,
       raise (HTTPException code detail))
  | inl _ =>
      (count_failed st, user_info, selected,
       raise (HTTPException 500 "Internal server error"))
  end.

Definition chat_completions_asgi_body (st : RouterStats)
    (providers : list AIProvider) (request : http_request)
    (env : handler_env)
    : RouterStats * option AIProvider * (exn + response) :=
  match request_json request with
  | inl e => (st, None, raise e)
  | inr request_data =>
      let request_data := <["stream" := JBool true]> request_data in
      let request_data :=
        <["x_use_asgi_streaming" := JBool true]> request_data in
      match parse_chat_request request_data with
      | inl e => (st, None, raise e)
      | inr chat_request =>
          match select_provider providers chat_request (env_entropy env) with
          | inl e => (st, None, raise e)
          | inr None =>
              (st, None,
               raise (HTTPException 503 "No available AI providers"))
          | inr (Some provider) =>
              match count_usage (name provider) st with
              | inl e => (st, Some provider, raise e)
              | inr st =>
                  let asgi_streamer :=
                    LowLevelASGIStreamer.init (env_start_time env)
                      (env_connection_id env) in
                  (count_successful st, Some provider,
                   mret (ASGIStreamingResponse asgi_streamer provider
                           chat_request))
              end
          end
      end
  end.

(** [POST /v1/chat/completions/asgi]. *)
Definition chat_completions_asgi (st : RouterStats) (user_info : UserInfo)
    (providers : list AIProvider) (request : http_request)
    (env : handler_env)
    : RouterStats * UserInfo * option AIProvider * (exn + response) :=
  let st := count_total st in
  let user_info := update_user_stats (env_now env) user_info in
  let '(st, selected, outcome) :=
    chat_completions_asgi_body st providers request env in
  match outcome with
  | inr r => (st, user_info, selected, mret r)
  | inl e =>
      (count_failed st, user_info, selected,
       raise (HTTPException 500 ("ASGI streaming error: " +:+ str_exn e)))
  end.

(** The wrapper generator of the buffered path: it hands on what the
    inner generator yields, and turns an exception of the iteration
    into one more event. *)
Definition error_handled_stream (result : forwarded) (provider : AIProvider)
    (up : upstream) : AIProvider * list bytes :=
  match result with
  | Generator start_time _ => stream_generator start_time provider up
  | Result _ =>
      (provider,
       [sse_event
          (error_envelope
             [ ("type", JStr "fastapi_stream_error");
               ("message",
                JStr (str_exn (TypeError "async for requires an object with __aiter__")));
               ("provider", JStr (name provider)) ])])
  end.

(** The server runs the returned response object against the
    upstream; the statistics are not within its reach. *)
Definition run_response (r : response) (up : upstream)
  : option AIProvider * caller_view :=
  match r with
  | JSONResult result => (None, JSONBody result)
  | EnhancedASGIStreamingResponse streamer provider chat_request
  | ASGIStreamingResponse streamer provider chat_request =>
      let '(_, provider, sent) :=
        LowLevelASGIStreamer.stream_response streamer provider chat_request up in
      (Some provider, ASGIMessages sent)
  | StreamingResponse result provider _ =>
      let '(provider, chunks) := error_handled_stream result provider up in
      (Some provider, BodyChunks chunks)
  end.

(** One request from the handler's entry to the end of the body. *)
Definition serve
    (handler : RouterStats -> UserInfo -> list AIProvider -> http_request ->
               handler_env ->
               RouterStats * UserInfo * option AIProvider * (exn + response))
    (st : RouterStats) (user_info : UserInfo) (providers : list AIProvider)
    (request : http_request) (env : handler_env) (up : upstream)
    : RouterStats * (exn + caller_view) :=
  let '(st, _, _, outcome) := handler st user_info providers request env in
  (st, r ← outcome; mret (run_response r up).2).

End Handlers.

(** ** Notions used by the statements *)

(** The weight arithmetic of a provider stays within [float]. *)
Definition no_overflow (p : AIProvider) : Prop :=
  ∃ n, pool_copies p = inr n.

(** Number of copies a provider gets in the pool. *)
Definition copies (p : AIProvider) : nat :=
  match pool_copies p with
  | inr n => Z.to_nat n
  | inl _ => 0
  end.

(** An envelope of the given kind for the given provider, with a
    message, and with the given status code (or none). *)
Definition is_error_envelope (envelope : json) (kind provider_name : string)
    (code : option Z) : Prop :=
  envelope_field "type" envelope = Some (JStr kind)
  ∧ (∃ message, envelope_field "message" envelope = Some (JStr message))
  ∧ envelope_field "provider" envelope = Some (JStr provider_name)
  ∧ envelope_field "code" envelope = JInt <$> code.

Section FailureKinds.

Context `{Library}.


End FailureKinds.

(** ** Sample inputs used by the closed examples *)

Definition sample_library : Library :=
  {| dumps := fun _ => "{}";
     str_exn := fun e =>
       match e with
       | ConnectError m | TimeoutException m | ValueError m
       | TypeError m | OtherError m => m
       | HTTPException c d => pretty c +:+ ": " +:+ d
       | IndexError => "list index out of range"
       | KeyError k => k
       | OverflowError => "int too large to convert to float"
       end;
     decode_ignore := fun b => b;
     parse_chat_request := fun d =>
       match d !! "model" with
       | Some (JStr m) =>
           let flag k :=
             match d !! k with
             | Some (JBool b) => Some b
             | _ => None
             end in
           inr (mkChatRequest m [] (Some 150) None (flag "stream")
                              (flag "x_use_asgi_streaming"))
       | _ => inl (ValueError "validation error")
       end |}.

Definition sample_request (m : string) (streaming : bool) : ChatRequest :=
  mkChatRequest m [] (Some 150) None (Some streaming) (Some false).

Definition healthy (p : AIProvider) : AIProvider := set_status HEALTHY p.

Definition sample_user (uid key : string) (limit used : Z)
    (last : string) (active : bool) : UserInfo :=
  mkUserInfo uid key limit used used "2024-12-01T09:00:00" last active.

(** A multi-user table: an account with a zero limit, an account that
    used up its limit the day before, an inactive account at its limit,
    and an account at its limit today. *)
Definition sample_auth : auth_config :=
  mkAuthConfig "multi_user" "sk-8d6804b011614dba7bd065f8644514b"
    (list_to_map
       [ ("sk-zero", sample_user "zero" "sk-zero" 0 0 "2024-12-19T08:00:00" true);
         ("sk-full", sample_user "full" "sk-full" 500 500 "2024-12-19T23:59:00" true);
         ("sk-off", sample_user "off" "sk-off" 500 500 "2024-12-20T07:00:00" false);
         ("sk-busy", sample_user "busy" "sk-busy" 500 500 "2024-12-20T07:30:00" true) ]).

Definition sample_upstream (code : Z) (chunks : list bytes) : upstream :=
  UpResponds (mkUpstreamResponse code (PyFloat.lit 11) (inr "upstream says no")
                                 chunks EndOfStream).

Definition sample_streamer : LowLevelASGIStreamer.t :=
  LowLevelASGIStreamer.init (PyFloat.lit 10) "asgi_10000_1".

Definition sample_post (outcome : exn + post_response) : post_env :=
  mkPostEnv outcome (PyFloat.lit 12) "2024-12-20T08:00:02".

Definition sample_body : gmap string json :=
  list_to_map [ ("id", JStr "chatcmpl-1"); ("object", JStr "chat.completion") ].

Definition initial_stats : RouterStats :=
  mkRouterStats 0 0 0
    (list_to_map [ ("deepseek", 0); ("lingyiwanwu", 0); ("ollama", 0) ]).

Definition sample_env : handler_env :=
  mkHandlerEnv (PyFloat.lit 10) "2024-12-20T08:00:00" 5 "asgi_10000_1"
    (PyFloat.lit 10) (sample_post (inl (ConnectError "refused"))).

Definition sample_http_request (direct : bool) : http_request :=
  mkHttpRequest
    (inr (list_to_map [ ("model", JStr "gpt-4");
                        ("messages", JList []);
                        ("x_use_asgi_streaming", JBool direct) ]))
    None.

Definition shared_user : UserInfo :=
  new_user "shared_user" "sk-8d6804b011614dba7bd065f8644514b" 999999
           "2024-12-20T08:00:00".

(** The served request, from the initial statistics, on the sample
    registry; [direct] picks the transport. *)
Definition sample_served (direct : bool) (up : upstream)
  : RouterStats * (exn + caller_view) :=
  serve (H := sample_library) (chat_completions (H := sample_library))
    initial_stats shared_user
    (map healthy initial_providers) (sample_http_request direct) sample_env up.

(** ** One round of [health_check_loop] and the [/health] endpoint *)

(** The body of the loop up to the sleep: every provider is probed (the
    probes run concurrently, each on its own provider object, so the
    outcome is that of probing them one by one), and the number of
    healthy providers is logged.  [envs i] is what the probe of the
    provider at position [i] meets. *)
Definition health_check_cycle (envs : nat -> probe_env)
    (providers : list AIProvider) : list AIProvider * nat :=
  let providers :=
    imap (fun i provider => (health_check_provider (envs i) provider).1)
         providers in
  let healthy_count :=
    length (filter (fun provider => status provider = HEALTHY) providers) in
  (providers, healthy_count).

(** [ProviderStatus.value]. *)
Definition status_value (s : ProviderStatus) : string :=
  match s with
  | HEALTHY => "healthy"
  | UNHEALTHY => "unhealthy"
  | UNKNOWN => "unknown"
  end.

Definition stats_json (st : RouterStats) : json :=
  JObj (list_to_map
          [ ("total_requests", JInt (stats_total_requests st));
            ("successful_requests", JInt (successful_requests st));
            ("failed_requests", JInt (failed_requests st));
            ("provider_usage", JObj (JInt <$> provider_usage st)) ]).

Definition provider_health_json (provider : AIProvider) : json :=
  JObj (list_to_map
          [ ("status", JStr (status_value (status provider)));
            ("response_time", JFloat (response_time provider));
            ("error_count", JInt (error_count provider));
            ("last_check", JFloat (last_check provider)) ]).

(** [GET /health]; the comprehension over the providers keeps, for a
    name that occurs twice, the later entry. *)
Definition health_check (providers : list AIProvider) (st : RouterStats)
    (mode : string) : gmap string json :=
  let healthy_names :=
    name <$> filter (fun p => status p = HEALTHY) providers in
  list_to_map
    [ ("status",
       JStr (match healthy_names with [] => "unhealthy" | _ => "healthy" end));
      ("providers",
       JObj (foldl (fun d provider =>
                      <[name provider := provider_health_json provider]> d)
                   ∅ providers));
      ("stats", stats_json st);
      ("auth_mode", JStr mode) ].

(** ** The user record across requests

    What one request does to the record of its user: [authenticate]
    runs [check_quota] on it and, when that admits the request, the
    handler runs [update_user_stats] on the same record. *)
Definition quota_request (today now : string) (user_info : UserInfo)
  : UserInfo * bool :=
  let '(user_info, ok) := check_quota today user_info in
  (if ok then update_user_stats now user_info else user_info, ok).

(** [n] requests in a row, all made at the same date. *)
Fixpoint quota_requests (n : nat) (today now : string) (user_info : UserInfo)
  : UserInfo :=
  match n with
  | O => user_info
  | S n => quota_requests n today now (quota_request today now user_info).1
  end.


(** A well-formed ASGI response: the start, then bodies that announce
    more, then one body that does not. *)
Definition well_formed_response (sent : list asgi_message) : Prop :=
  ∃ headers bodies final,
    sent = HttpResponseStart 200 headers
           :: ((fun b => HttpResponseBody b true) <$> bodies)
           ++ [HttpResponseBody final false].

(** The error type under which the [except] clauses of both transports
    report an exception. *)
Definition error_kind (e : exn) : string :=
  match e with
  | ConnectError _ => "connection_error"
  | TimeoutException _ => "timeout_error"
  | _ => "stream_error"
  end.

(** The content an upstream behaviour offers for relaying: the
    non-empty chunks of a 200 answer, nothing otherwise. *)
Definition upstream_content (up : upstream) : list bytes :=
  match up with
  | UpResponds response =>
      if decide (up_status_code response = 200)
      then filter (fun c : bytes => nonempty c) (up_chunks response)
      else []
  | UpRaises _ => []
  end.

(** The count that [check_quota] goes by: the stored count, or zero
    when the last request carries another date. *)
Definition requests_counted (today : string) (user_info : UserInfo) : Z :=
  if decide (String.substring 0 10 (last_request user_info) ≠ today) then 0
  else requests_today user_info.

(** The responses of the direct relay. *)
Definition is_direct (r : response) : bool :=
  match r with
  | EnhancedASGIStreamingResponse _ _ _ | ASGIStreamingResponse _ _ _ => true
  | _ => false
  end.

(** The fields of a provider that come from the configuration. *)
Definition same_configuration (p q : AIProvider) : Prop :=
  name q = name p ∧ base_url q = base_url p ∧ api_key q = api_key p
  ∧ models q = models p ∧ weight q = weight p.

(** A 200 answer that breaks off after two chunks. *)
Definition broken_stream : upstream_response :=
  mkUpstreamResponse 200 (PyFloat.lit 11) (inr EmptyString)
    ["data: a"; EmptyString; "data: bc"]
    (StreamRaises (TimeoutException "read timed out")).

(** A round in which only the second provider answers. *)
Definition sample_probes (i : nat) : probe_env :=
  mkProbeEnv (PyFloat.lit 100)
    (if decide (i = 1%nat) then inr 200 else inl (ConnectError "refused"))
    (PyFloat.lit 101) (PyFloat.lit 101).

(** * Theorems *)

(** ** The error monad *)

Lemma bind_inr {A B} (m : exn + A) (f : A -> exn + B) (b : B) :
  m ≫= f = inr b ↔ ∃ a, m = inr a ∧ f a = inr b.
Proof.
  destruct m as [e|a]; simpl; split.
  - discriminate.
  - intros (a & Ha & _). discriminate.
  - eauto.
  - intros (a' & Ha & Hf). by simplify_eq.
Qed.

Lemma of_int_raises (n : Z) (e : exn) :
  PyFloat.of_int n = inl e -> e = OverflowError.
Proof.
  unfold PyFloat.of_int.
  destruct (PyFloat.is_finite _); [discriminate|].
  unfold raise. by intros [= <-].
Qed.

(** ** Selection *)

(** The loop body is the closed-form weight, truncated and floored at
    one, on every provider, whether or not the arithmetic overflows. *)
Lemma loop_copies_closed_form (p : AIProvider) :
  loop_copies p = (n ← pool_copies p; mret (replicate (Z.to_nat n) p)).
Proof.
  unfold loop_copies, loop_weight, pool_copies, effective_weight.
  destruct (PyFloat.gtb (response_time p) PyFloat.zero); simpl.
  - destruct (PyFloat.of_int (weight p)) as [e|w] eqn:Hw; simpl; [done|].
    destruct (PyFloat.of_int (error_count p)) as [e|ec]; simpl; [done|].
    by destruct (PyFloat.to_int _).
  - destruct (PyFloat.of_int (error_count p)) as [e|ec] eqn:Hec; simpl.
    + destruct (PyFloat.of_int (weight p)) as [e'|w] eqn:Hw; simpl; [|done].
      apply of_int_raises in Hec, Hw. by subst.
    + destruct (PyFloat.of_int (weight p)) as [e'|w]; simpl; [done|].
      by destruct (PyFloat.to_int _).
Qed.

Lemma pool_copies_ge_1 (p : AIProvider) (n : Z) :
  pool_copies p = inr n -> 1 <= n.
Proof.
  unfold pool_copies. intros Hn.
  apply bind_inr in Hn as (w & _ & Hn).
  apply bind_inr in Hn as (k & _ & Hn).
  injection Hn as <-. lia.
Qed.

Lemma copies_pos (p : AIProvider) : no_overflow p -> (1 <= copies p)%nat.
Proof.
  intros [n Hn]. unfold copies. rewrite Hn.
  apply pool_copies_ge_1 in Hn. lia.
Qed.

Lemma loop_copies_no_overflow (p : AIProvider) :
  no_overflow p -> loop_copies p = inr (replicate (copies p) p).
Proof.
  intros [n Hn]. rewrite loop_copies_closed_form.
  unfold copies. by rewrite Hn.
Qed.

Lemma loop_copies_inr (p : AIProvider) (l : list AIProvider) :
  loop_copies p = inr l -> no_overflow p.
Proof.
  rewrite loop_copies_closed_form. intros Hl.
  apply bind_inr in Hl as (n & Hn & _). by exists n.
Qed.

(** The accumulating loop builds the pool block by block. *)
Lemma extend_weighted_blocks (candidates acc : list AIProvider) :
  Forall no_overflow candidates ->
  extend_weighted acc candidates
  = inr (acc ++ flat_map (fun p => replicate (copies p) p) candidates).
Proof.
  revert acc. induction candidates as [|p rest IH]; intros acc Hall; simpl.
  - by rewrite app_nil_r.
  - inversion Hall as [|? ? Hp Hrest]; subst.
    rewrite (loop_copies_no_overflow p Hp). simpl.
    rewrite (IH _ Hrest). by rewrite <- app_assoc.
Qed.

Lemma extend_weighted_inr (candidates acc pool : list AIProvider) :
  extend_weighted acc candidates = inr pool -> Forall no_overflow candidates.
Proof.
  revert acc. induction candidates as [|p rest IH]; intros acc Hp; simpl in *.
  - constructor.
  - apply bind_inr in Hp as (l & Hl & Hrest).
    constructor; [by eapply loop_copies_inr | by eapply IH].
Qed.

Lemma elem_of_pool (candidates : list AIProvider) (x : AIProvider) :
  x ∈ flat_map (fun p => replicate (copies p) p) candidates -> x ∈ candidates.
Proof.
  induction candidates as [|p rest IH]; simpl.
  - by intros ?%elem_of_nil.
  - rewrite elem_of_app. intros [Hx|Hx].
    + apply elem_of_replicate in Hx as [-> _]. left.
    + right. by apply IH.
Qed.

Lemma pool_length (candidates : list AIProvider) :
  Forall no_overflow candidates ->
  (length candidates
   <= length (flat_map (fun p => replicate (copies p) p) candidates))%nat.
Proof.
  induction 1 as [|p rest Hp _ IH]; simpl; [lia|].
  rewrite length_app, length_replicate.
  apply copies_pos in Hp. lia.
Qed.

Lemma random_choice_lookup {A} (seq : list A) (i : nat) (x : A) :
  seq !! i = Some x -> random_choice seq i = inr x.
Proof.
  intros Hx. unfold random_choice.
  pose proof (lookup_lt_Some _ _ _ Hx) as Hlt.
  rewrite Nat.mod_small by done. by rewrite Hx.
Qed.

Lemma random_choice_total {A} (seq : list A) (r : nat) :
  seq ≠ [] -> ∃ x, random_choice seq r = inr x ∧ x ∈ seq.
Proof.
  intros Hne. unfold random_choice.
  assert (r `mod` length seq < length seq)%nat as Hlt.
  { apply Nat.mod_upper_bound. destruct seq; simpl; [done|lia]. }
  apply lookup_lt_is_Some in Hlt as [x Hx].
  rewrite Hx. exists x. split; [done|]. by eapply list_elem_of_lookup_2.
Qed.

Lemma healthy_providers_filter (providers : list AIProvider) :
  (∃ p, p ∈ providers ∧ is_healthy_candidate p) ->
  healthy_providers providers = filter is_healthy_candidate providers
  ∧ filter is_healthy_candidate providers ≠ [].
Proof.
  intros (p & Hin & Hp). unfold healthy_providers.
  assert (p ∈ filter is_healthy_candidate providers) as Hf
    by by apply list_elem_of_filter.
  destruct (filter is_healthy_candidate providers); [|done].
  by apply elem_of_nil in Hf.
Qed.

Lemma healthy_providers_fallback (providers : list AIProvider) :
  (∀ p, p ∈ providers -> ¬ is_healthy_candidate p) ->
  healthy_providers providers = providers.
Proof.
  intros Hnone. unfold healthy_providers.
  destruct (filter is_healthy_candidate providers) as [|q l] eqn:Hf; [done|].
  assert (q ∈ filter is_healthy_candidate providers) as Hq
    by (rewrite Hf; left).
  apply list_elem_of_filter in Hq as [Hq Hin]. by destruct (Hnone q).
Qed.

Lemma model_compatible_subset (m : string) (l : list AIProvider) (x : AIProvider) :
  x ∈ model_compatible_providers m l -> x ∈ l.
Proof.
  unfold model_compatible_providers.
  destruct (filter _ l) as [|q l'] eqn:Hf; [done|].
  rewrite <- Hf. by intros [_ ?]%list_elem_of_filter.
Qed.

Lemma model_compatible_nonempty (m : string) (l : list AIProvider) :
  l ≠ [] -> model_compatible_providers m l ≠ [].
Proof.
  unfold model_compatible_providers. intros Hl.
  by destruct (filter _ l).
Qed.

(** With a non-empty candidate list whose weights are in range, the
    selector returns a member of the pool. *)
Lemma select_provider_pool (providers : list AIProvider)
    (request : ChatRequest) (r : nat) :
  let candidates :=
    model_compatible_providers (model request) (healthy_providers providers) in
  let pool := flat_map (fun p => replicate (copies p) p) candidates in
  candidates ≠ [] ->
  Forall no_overflow candidates ->
  pool ≠ []
  ∧ select_provider providers request r
    = (selected ← random_choice pool r; mret (Some selected)).
Proof.
  intros candidates pool Hne Hall. split.
  - pose proof (pool_length candidates Hall) as Hlen.
    subst pool. intros Hnil. rewrite Hnil in Hlen. simpl in Hlen.
    destruct candidates; simpl in *; [done|lia].
  - unfold select_provider. fold candidates.
    destruct candidates as [|c cs] eqn:Hc; [done|].
    rewrite (extend_weighted_blocks _ [] Hall). done.
Qed.

Lemma filter_replicate_eq (p : AIProvider) (n : nat) :
  filter (fun x => x = p) (replicate n p) = replicate n p.
Proof.
  induction n as [|n IH]; simpl; [done|].
  rewrite filter_cons_True by done. by rewrite IH.
Qed.

Lemma filter_replicate_ne (p q : AIProvider) (n : nat) :
  q ≠ p -> filter (fun x => x = p) (replicate n q) = [].
Proof.
  intros Hne. induction n as [|n IH]; simpl; [done|].
  by rewrite filter_cons_False.
Qed.

Lemma pool_count_absent (candidates : list AIProvider) (p : AIProvider) :
  p ∉ candidates ->
  filter (fun x => x = p)
         (flat_map (fun q => replicate (copies q) q) candidates) = [].
Proof.
  induction candidates as [|q rest IH]; simpl; intros Hnotin; [done|].
  apply not_elem_of_cons in Hnotin as [Hne Hrest].
  rewrite filter_app, filter_replicate_ne by done. by rewrite IH.
Qed.

Lemma pool_count (candidates : list AIProvider) (p : AIProvider) :
  NoDup candidates -> p ∈ candidates ->
  length (filter (fun x => x = p)
            (flat_map (fun q => replicate (copies q) q) candidates))
  = copies p.
Proof.
  induction 1 as [|q rest Hq Hnd IH]; simpl; intros Hin.
  - by apply elem_of_nil in Hin.
  - rewrite filter_app, length_app.
    destruct (decide (q = p)) as [->|Hne].
    + rewrite filter_replicate_eq, length_replicate.
      rewrite pool_count_absent by done. simpl. lia.
    + rewrite filter_replicate_ne by done.
      apply elem_of_cons in Hin as [->|Hin]; [done|].
      by rewrite IH.
Qed.

Lemma copies_unfold (p : AIProvider) :
  no_overflow p ->
  ∃ w n, effective_weight p = inr w ∧ PyFloat.to_int w = inr n
         ∧ copies p = Z.to_nat (Z.max 1 n).
Proof.
  intros [k Hk]. unfold copies. rewrite Hk.
  unfold pool_copies in Hk.
  apply bind_inr in Hk as (w & Hw & Hk).
  apply bind_inr in Hk as (n & Hn & Hk).
  injection Hk as <-. by exists w, n.
Qed.

(** C1 (as amended): for the candidates that reach the weighting step,
    the effective weight is the static weight times the error factor
    max(0.1, 1.0 - error_count * 0.1), and times the latency factor
    max(0.1, 2.0 - response_time) only when the response time is
    positive; the pool is the candidates' blocks in order, the block of
    a candidate holding max(1, int(weight)) copies of it (the integer
    part, not the rounded value); and the draw picks a slot of the pool,
    every slot being the outcome of exactly one draw below its length. *)
Theorem C1_pool_by_truncated_weight (providers : list AIProvider)
    (request : ChatRequest) :
  let candidates :=
    model_compatible_providers (model request) (healthy_providers providers) in
  Forall no_overflow candidates ->
  ∃ pool,
    extend_weighted [] candidates = inr pool
    ∧ pool = flat_map (fun p => replicate (copies p) p) candidates
    ∧ (∀ p, p ∈ candidates ->
         ∃ w n, effective_weight p = inr w ∧ PyFloat.to_int w = inr n
                ∧ copies p = Z.to_nat (Z.max 1 n))
    ∧ (NoDup candidates -> ∀ p, p ∈ candidates ->
         length (filter (fun x => x = p) pool) = copies p)
    ∧ (∀ i x, pool !! i = Some x ->
         select_provider providers request i = inr (Some x)).
Proof.
  intros candidates Hall.
  exists (flat_map (fun p => replicate (copies p) p) candidates).
  split; [by rewrite (extend_weighted_blocks _ [] Hall)|].
  split; [done|]. split; [|split].
  - intros p Hp. apply copies_unfold.
    rewrite Forall_forall in Hall. by apply Hall.
  - intros Hnd p Hp. by apply pool_count.
  - intros i x Hx.
    assert (candidates ≠ []) as Hne.
    { intros Hnil. rewrite Hnil in Hx. simpl in Hx.
      by rewrite lookup_nil in Hx. }
    destruct (select_provider_pool providers request i Hne Hall) as [_ ->].
    subst candidates. cbv zeta.
    by erewrite random_choice_lookup by exact Hx.
Qed.

Lemma initial_providers_no_overflow :
  Forall no_overflow (map healthy initial_providers).
Proof. repeat constructor; eexists; vm_compute; reflexivity. Defined.

Lemma C1_pool_witness :
  ∃ pool,
    extend_weighted [] (map healthy initial_providers) = inr pool
    ∧ length pool = 8%nat.
Proof.
  destruct (C1_pool_by_truncated_weight (map healthy initial_providers)
              (sample_request "unlisted-model" true)
              initial_providers_no_overflow) as (pool & Hpool & -> & _).
  exists (flat_map (fun p => replicate (copies p) p)
            (map healthy initial_providers)).
  split; [exact Hpool | vm_compute; reflexivity].
Defined.

(** C1 (as stated) fails on the code.  A provider that has not been
    measured yet (response time 0, weight 3, no errors) gets 3 copies,
    where the stated formula gives 3 * 2.0 * 1.0 = 6; and a provider with
    response time 1.5 has weight 1.5, which the code turns into one copy
    where rounding gives two. *)
Lemma C1_counterexample :
  spec_copies (healthy deepseek) = inr 6
  ∧ extend_weighted [] [healthy deepseek] = inr (replicate 3 (healthy deepseek))
  ∧ let slow :=
      set_response_time (PyFloat.div (PyFloat.lit 3) (PyFloat.lit 2))
                        (healthy deepseek) in
    spec_copies slow = inr 2
    ∧ extend_weighted [] [slow] = inr [slow].
Proof. vm_compute. repeat split; reflexivity. Qed.

Lemma random_choice_inr {A} (seq : list A) (r : nat) (x : A) :
  random_choice seq r = inr x -> x ∈ seq.
Proof.
  unfold random_choice.
  destruct (seq !! _) as [y|] eqn:Hy; [|done].
  intros [= <-]. by eapply list_elem_of_lookup_2.
Qed.

(** Whatever the selector returns on a non-empty candidate list is one
    of the candidates. *)
Lemma select_provider_inr (providers : list AIProvider)
    (request : ChatRequest) (r : nat) (outcome : option AIProvider) :
  let candidates :=
    model_compatible_providers (model request) (healthy_providers providers) in
  candidates ≠ [] ->
  select_provider providers request r = inr outcome ->
  ∃ p, outcome = Some p ∧ p ∈ candidates.
Proof.
  intros candidates Hne Hsel.
  assert (Forall no_overflow candidates) as Hall.
  { unfold select_provider in Hsel. fold candidates in Hsel.
    destruct candidates as [|c cs]; [done|].
    apply bind_inr in Hsel as (pool & Hpool & _).
    by eapply extend_weighted_inr. }
  destruct (select_provider_pool providers request r Hne Hall) as [_ Heq].
  rewrite Heq in Hsel.
  apply bind_inr in Hsel as (x & Hx & [= <-]).
  exists x. split; [done|].
  apply random_choice_inr in Hx. by apply elem_of_pool in Hx.
Qed.

(** C5: when some configured provider is healthy with fewer than five
    consecutive errors, the set kept by step 1 is exactly the set of such
    providers, a provider returned by the selector is always one of them,
    and one is returned whenever the weight arithmetic stays in range;
    the full provider list is considered only when no provider
    qualifies. *)
Theorem C5_selector_prefers_healthy (providers : list AIProvider)
    (request : ChatRequest) (r : nat) :
  ((∃ p, p ∈ providers ∧ is_healthy_candidate p) ->
     healthy_providers providers = filter is_healthy_candidate providers
     ∧ (∀ outcome, select_provider providers request r = inr outcome ->
          ∃ p, outcome = Some p ∧ p ∈ providers ∧ is_healthy_candidate p)
     ∧ (Forall no_overflow providers ->
          ∃ p, select_provider providers request r = inr (Some p)
               ∧ p ∈ providers ∧ is_healthy_candidate p))
  ∧ ((∀ p, p ∈ providers -> ¬ is_healthy_candidate p) ->
     healthy_providers providers = providers
     ∧ (providers ≠ [] -> Forall no_overflow providers ->
        ∃ p, select_provider providers request r = inr (Some p)
             ∧ p ∈ providers)).
Proof.
  assert (∀ l, (∀ x, x ∈ l -> x ∈ providers) -> l ≠ [] ->
            healthy_providers providers = l ->
            (∀ outcome, select_provider providers request r = inr outcome ->
               ∃ p, outcome = Some p ∧ p ∈ l)
            ∧ (Forall no_overflow providers ->
               ∃ p, select_provider providers request r = inr (Some p) ∧ p ∈ l))
    as Hsel.
  { intros l Hsub Hne Hl.
    pose proof (model_compatible_nonempty (model request) l Hne) as Hc.
    rewrite <- Hl in Hc. split.
    - intros outcome Hout.
      destruct (select_provider_inr providers request r outcome Hc Hout)
        as (p & -> & Hp).
      exists p. split; [done|]. rewrite Hl in Hp.
      by eapply model_compatible_subset.
    - intros Hall.
      assert (Forall no_overflow
                (model_compatible_providers (model request)
                   (healthy_providers providers))) as Hc_all.
      { rewrite Forall_forall in Hall. apply Forall_forall. intros x Hx.
        apply Hall, Hsub. rewrite Hl in Hx.
        by eapply model_compatible_subset. }
      destruct (select_provider_pool providers request r Hc Hc_all)
        as [Hpool ->].
      destruct (random_choice_total _ r Hpool) as (x & -> & Hx).
      exists x. split; [done|].
      apply elem_of_pool in Hx. rewrite Hl in Hx.
      by eapply model_compatible_subset. }
  split.
  - intros Hex. destruct (healthy_providers_filter providers Hex) as [Heq Hne].
    split; [done|].
    destruct (Hsel (filter is_healthy_candidate providers)) as [Hsafe Hlive];
      [|done|done|].
    { by intros x [_ ?]%list_elem_of_filter. }
    split.
    + intros outcome Hout. destruct (Hsafe outcome Hout) as (p & -> & Hin).
      exists p. by apply list_elem_of_filter in Hin as [? ?].
    + intros Hall. destruct (Hlive Hall) as (p & Hp & Hin).
      exists p. by apply list_elem_of_filter in Hin as [? ?].
  - intros Hnone. pose proof (healthy_providers_fallback providers Hnone) as Heq.
    split; [done|]. intros Hne Hall.
    by destruct (Hsel providers) as [_ Hlive]; [| | |apply Hlive].
Qed.

Lemma C5_selector_witness :
  ∃ p, select_provider (map healthy initial_providers)
         (sample_request "gpt-4" true) 5 = inr (Some p)
       ∧ p ∈ map healthy initial_providers ∧ is_healthy_candidate p.
Proof.
  destruct (C5_selector_prefers_healthy (map healthy initial_providers)
              (sample_request "gpt-4" true) 5) as [Hsome _].
  destruct Hsome as (_ & _ & Hlive).
  - exists (healthy deepseek). split; [left|].
    split; [reflexivity | vm_compute; reflexivity].
  - exact (Hlive initial_providers_no_overflow).
Defined.


(** ** Health probe *)

(** C6: a probe answered with HTTP 200 leaves the provider healthy with
    a zero error counter and the elapsed probe time as its response time
    (the old estimate plays no part); a probe that fails, by a non-200
    answer or by any exception (the missing first model included),
    leaves it unhealthy with the counter one higher and the last-check
    time recorded. *)
Theorem C6_health_probe (env : probe_env) (provider : AIProvider) :
  let '(provider', ok) := health_check_provider env provider in
  (models provider ≠ [] -> probe_post env = inr 200 ->
     ok = true
     ∧ status provider' = HEALTHY
     ∧ error_count provider' = 0
     ∧ response_time provider'
       = PyFloat.sub (probe_response_clock env) (probe_start_time env)
     ∧ last_check provider' = probe_check_clock env)
  ∧ (models provider = [] ∨ probe_post env ≠ inr 200 ->
     ok = false
     ∧ status provider' = UNHEALTHY
     ∧ error_count provider' = error_count provider + 1
     ∧ last_check provider' = probe_check_clock env).
Proof.
  unfold health_check_provider.
  destruct (models provider) as [|m ms]; simpl.
  - split; [done|]. by intros _.
  - destruct (probe_post env) as [e|code]; simpl.
    + split; [done|]. by intros _.
    + destruct (decide (code = 200)) as [->|Hne]; simpl.
      * split; [done|]. by intros [?|?].
      * split; [|done]. intros _ [= ?]. done.
Qed.

Lemma C6_health_probe_witness :
  let ok_env := mkProbeEnv (PyFloat.lit 100) (inr 200) (PyFloat.lit 101)
                           (PyFloat.lit 102) in
  let bad_env := mkProbeEnv (PyFloat.lit 100) (inl (TimeoutException "probe"))
                            (PyFloat.lit 101) (PyFloat.lit 110) in
  let failing := set_error_count 3 (set_response_time (PyFloat.lit 7) deepseek) in
  (status (health_check_provider ok_env failing).1 = HEALTHY
   ∧ error_count (health_check_provider ok_env failing).1 = 0
   ∧ response_time (health_check_provider ok_env failing).1 = PyFloat.lit 1)
  ∧ (status (health_check_provider bad_env failing).1 = UNHEALTHY
     ∧ error_count (health_check_provider bad_env failing).1 = 4
     ∧ last_check (health_check_provider bad_env failing).1 = PyFloat.lit 110).
Proof.
  intros ok_env bad_env failing. split.
  - pose proof (C6_health_probe ok_env failing) as Hok.
    destruct (health_check_provider ok_env failing) as [p' ok].
    destruct Hok as [Hok _].
    destruct Hok as (_ & Hs & He & Hr & _); [done|reflexivity|].
    simpl. rewrite Hs, He, Hr. repeat split.
  - pose proof (C6_health_probe bad_env failing) as Hbad.
    destruct (health_check_provider bad_env failing) as [p' ok].
    destruct Hbad as [_ Hbad].
    destruct Hbad as (_ & Hs & He & Hl); [right; done|].
    simpl. rewrite Hs, He, Hl. repeat split.
Defined.

(** ** Model names *)

Lemma streamer_mapping_same :
  LowLevelASGIStreamer.model_mapping = model_mapping.
Proof. reflexivity. Qed.

Lemma streamer_map_model_name_same (requested_model : string)
    (provider : AIProvider) :
  LowLevelASGIStreamer.map_model_name requested_model provider
  = map_model_name requested_model provider.
Proof. reflexivity. Qed.

Lemma model_mapping_aliases (requested_model : string) :
  is_Some (model_mapping !! requested_model)
  ↔ requested_model ∈ ["gpt-3.5-turbo"; "gpt-4"; "code-assistant"].
Proof.
  unfold model_mapping. rewrite <- elem_of_dom.
  rewrite dom_list_to_map_L. simpl. set_solver.
Qed.

(** C8: on a provider with a first model, a generic alias maps to the
    provider's entry in the alias's table, or to the first model when
    the table has no entry for the provider; a name that is no alias and
    is one of the provider's models maps to itself; any other name maps
    to the first model.  Both copies of the mapper agree, and equal
    arguments give equal results. *)
Theorem C8_map_model_name (requested_model : string) (provider : AIProvider)
    (first : string) (others : list string) :
  models provider = first :: others ->
  (∀ translations, model_mapping !! requested_model = Some translations ->
     map_model_name requested_model provider
     = inr (default first (translations !! name provider)))
  ∧ (model_mapping !! requested_model = None ->
     requested_model ∈ models provider ->
     map_model_name requested_model provider = inr requested_model)
  ∧ (model_mapping !! requested_model = None ->
     requested_model ∉ models provider ->
     map_model_name requested_model provider = inr first)
  ∧ LowLevelASGIStreamer.map_model_name requested_model provider
    = map_model_name requested_model provider
  ∧ (∀ requested_model' provider',
       requested_model' = requested_model -> provider' = provider ->
       map_model_name requested_model' provider'
       = map_model_name requested_model provider
       ∧ LowLevelASGIStreamer.map_model_name requested_model' provider'
         = LowLevelASGIStreamer.map_model_name requested_model provider).
Proof.
  intros Hmodels. unfold map_model_name. rewrite Hmodels.
  repeat split.
  - by intros translations ->.
  - intros -> Hin. by rewrite decide_True.
  - intros -> Hnotin. by rewrite decide_False.
  - unfold LowLevelASGIStreamer.map_model_name.
    rewrite streamer_mapping_same. by rewrite Hmodels.
  - subst. by rewrite ?Hmodels.
  - by subst.
Qed.

Lemma C8_map_model_name_witness :
  map_model_name "code-assistant" deepseek = inr "deepseek-coder"
  ∧ map_model_name "gpt-4"
      (new_provider "other" "http://other" "k" ["m1"; "m2"] 1) = inr "m1"
  ∧ map_model_name "deepseek-coder" deepseek = inr "deepseek-coder"
  ∧ map_model_name "unknown-model" ollama = inr "llama3.2".
Proof.
  destruct (C8_map_model_name "code-assistant" deepseek "deepseek-chat"
              ["deepseek-coder"] eq_refl) as (Halias & _).
  destruct (C8_map_model_name "gpt-4"
              (new_provider "other" "http://other" "k" ["m1"; "m2"] 1)
              "m1" ["m2"] eq_refl) as (Hfallback & _).
  destruct (C8_map_model_name "deepseek-coder" deepseek "deepseek-chat"
              ["deepseek-coder"] eq_refl) as (_ & Hnative & _).
  destruct (C8_map_model_name "unknown-model" ollama "llama3.2"
              ["qwen2:7b"; "codegemma"] eq_refl) as (_ & _ & Hdefault & _).
  split; [|split; [|split]].
  - rewrite (Halias _ eq_refl). vm_compute. reflexivity.
  - rewrite (Hfallback _ eq_refl). vm_compute. reflexivity.
  - apply Hnative; [vm_compute; reflexivity|]. right. left.
  - apply Hdefault; [vm_compute; reflexivity|].
    intros Hin. by repeat (apply elem_of_cons in Hin as [?|Hin]; [done|]);
      apply elem_of_nil in Hin.
Defined.


(** ** Authentication and quota *)

Lemma check_quota_same_day (today : string) (u : UserInfo) :
  String.substring 0 10 (last_request u) = today ->
  check_quota today u = (u, bool_decide (requests_today u < daily_limit u)).
Proof. intros Hsame. unfold check_quota. by rewrite decide_False by (by intros ?). Qed.

Lemma check_quota_rollover (today : string) (u : UserInfo) :
  String.substring 0 10 (last_request u) ≠ today ->
  check_quota today u
  = (set_requests_today 0 u, bool_decide (0 < daily_limit u)).
Proof. intros Hnew. unfold check_quota. by rewrite decide_True. Qed.

(** C9 (as amended): an inactive account is turned away as inactive
    before any quota check.  For an active account whose last request
    carries the current date, a count that has reached the daily limit
    is rejected as quota-exceeded (429).  When the date part of the last
    request differs from the current date, the quota check itself sets
    the count to zero (in multi-user mode in the stored record), and
    that request is admitted exactly when the daily limit is positive. *)
Theorem C9_quota_gate (cfg : auth_config) (now today key : string)
    (u : UserInfo) :
  verify_api_key cfg now key = Some u ->
  (is_active u = false ->
     authenticate cfg now today key
     = (cfg, inl (HTTPException 403 "User account is inactive")))
  ∧ (is_active u = true ->
     String.substring 0 10 (last_request u) = today ->
     daily_limit u <= requests_today u ->
     ∃ detail,
       (authenticate cfg now today key).2 = inl (HTTPException 429 detail))
  ∧ (is_active u = true ->
     String.substring 0 10 (last_request u) ≠ today ->
     (check_quota today u).1 = set_requests_today 0 u
     ∧ (auth_mode cfg = "multi_user" ->
        users_db (authenticate cfg now today key).1 !! key
        = Some (set_requests_today 0 u))
     ∧ (0 < daily_limit u ->
        (authenticate cfg now today key).2 = inr (set_requests_today 0 u))
     ∧ (daily_limit u <= 0 ->
        ∃ detail,
          (authenticate cfg now today key).2 = inl (HTTPException 429 detail))).
Proof.
  intros Hkey. unfold authenticate. rewrite Hkey.
  split; [|split].
  - by intros ->.
  - intros -> Hsame Hfull. cbn [negb].
    rewrite (check_quota_same_day _ _ Hsame).
    rewrite bool_decide_false by lia. simpl. by eexists.
  - intros -> Hnew. cbn [negb].
    rewrite (check_quota_rollover _ _ Hnew). simpl.
    split; [done|]. split; [|split].
    + intros Hmode. unfold store_user.
      rewrite decide_False by (by rewrite Hmode).
      destruct (negb _); simpl; apply lookup_insert_eq.
    + intros Hpos. by rewrite bool_decide_true.
    + intros Hzero. rewrite bool_decide_false by lia. simpl. by eexists.
Qed.

Lemma C9_quota_gate_witness :
  (∃ detail,
     (authenticate sample_auth "2024-12-20T08:00:00" "2024-12-20" "sk-busy").2
     = inl (HTTPException 429 detail))
  ∧ (authenticate sample_auth "2024-12-21T00:00:05" "2024-12-21" "sk-busy").2
    = inr (set_requests_today 0
             (sample_user "busy" "sk-busy" 500 500 "2024-12-20T07:30:00" true)).
Proof.
  assert (verify_api_key sample_auth "2024-12-20T08:00:00" "sk-busy"
          = Some (sample_user "busy" "sk-busy" 500 500 "2024-12-20T07:30:00" true))
    as Hkey by (vm_compute; reflexivity).
  split.
  - destruct (C9_quota_gate sample_auth "2024-12-20T08:00:00" "2024-12-20"
                "sk-busy" _ Hkey) as (_ & Hfull & _).
    apply Hfull; [reflexivity | reflexivity | simpl; lia].
  - destruct (C9_quota_gate sample_auth "2024-12-21T00:00:05" "2024-12-21"
                "sk-busy" _ Hkey) as (_ & _ & Hnew).
    destruct Hnew as (_ & _ & Hadmit & _); [reflexivity | by vm_compute |].
    apply Hadmit. simpl. lia.
Defined.

(** C9 (as stated) fails on the code.  On the day after their last
    request, the account with a zero limit is rejected although the
    count was reset, and the account that had used up its limit the day
    before is admitted although its stored count equals the limit; the
    inactive account at its limit is rejected as inactive (403), not as
    quota-exceeded. *)
Lemma C9_counterexample :
  (∃ detail,
     (authenticate sample_auth "2024-12-20T08:00:00" "2024-12-20" "sk-zero").2
     = inl (HTTPException 429 detail))
  ∧ (∃ u,
       users_db sample_auth !! "sk-full" = Some u
       ∧ requests_today u = daily_limit u
       ∧ (authenticate sample_auth "2024-12-20T08:00:00" "2024-12-20"
            "sk-full").2 = inr (set_requests_today 0 u))
  ∧ (∃ u,
       users_db sample_auth !! "sk-off" = Some u
       ∧ requests_today u = daily_limit u
       ∧ (authenticate sample_auth "2024-12-20T08:00:00" "2024-12-20"
            "sk-off").2 = inl (HTTPException 403 "User account is inactive")).
Proof.
  split; [|split].
  - eexists. vm_compute. reflexivity.
  - eexists. split; [vm_compute; reflexivity|]. split; vm_compute; reflexivity.
  - eexists. split; [vm_compute; reflexivity|]. split; vm_compute; reflexivity.
Qed.


(** ** The streaming transports *)

Section TransportFacts.

Context `{Library}.

Lemma generator_relay_yields (chunks : list bytes) (n b : Z)
    (yielded : list bytes) :
  (generator_relay chunks n b yielded).2
  = yielded ++ filter (fun c : bytes => nonempty c) chunks.
Proof.
  revert n b yielded. induction chunks as [|c rest IH]; intros n b yielded.
  - simpl. by rewrite app_nil_r.
  - simpl. destruct (nonempty c) eqn:Hc.
    + rewrite IH. rewrite filter_cons_True by (rewrite Hc; exact I).
      by rewrite <- app_assoc.
    + rewrite IH. rewrite filter_cons_False by (rewrite Hc; intros []). done.
Qed.

Lemma relay_sends (chunks : list bytes) (self : LowLevelASGIStreamer.t)
    (sent : list asgi_message) :
  (LowLevelASGIStreamer.relay chunks self sent).2
  = sent ++ ((fun c => HttpResponseBody c true)
               <$> filter (fun c : bytes => nonempty c) chunks).
Proof.
  revert self sent. induction chunks as [|c rest IH]; intros self sent.
  - simpl. by rewrite app_nil_r.
  - simpl. destruct (nonempty c) eqn:Hc.
    + rewrite IH. rewrite filter_cons_True by (rewrite Hc; exact I).
      rewrite fmap_cons. by rewrite <- app_assoc.
    + rewrite IH. rewrite filter_cons_False by (rewrite Hc; intros []). done.
Qed.



End TransportFacts.

Section TransportExamples.

#[local] Existing Instance sample_library.




End TransportExamples.

(** ** Non-streaming forwarding *)

Section ForwardingFacts.

Context `{Library}.

Lemma forward_request_nonstreaming (start_time : float) (env : post_env)
    (provider : AIProvider) (request : ChatRequest) (actual_model : string) :
  map_model_name (model request) provider = inr actual_model ->
  truthy (stream request) = false ->
  forward_request start_time env provider request
  = match forward_nonstreaming start_time env provider with
    | (provider', inl e) =>
        (set_error_count (error_count provider' + 1) provider',
         inl (HTTPException 502 ("Provider error: " +:+ str_exn e)))
    | (provider', inr result) => (provider', inr (Result result))
    end.
Proof.
  intros Hmodel Hstream. unfold forward_request, forward_body.
  rewrite Hmodel, Hstream.
  by destruct (forward_nonstreaming start_time env provider) as [p' [e|r]].
Qed.

(** C7 (as amended): when the upstream answers a non-streaming call with
    HTTP 200 and a body that decodes to a JSON object, the call returns
    that object with the key _router_info set to the routing block
    (provider name, measured latency, timestamp, streaming = false);
    every other key keeps the upstream's value, while a _router_info
    already present in the body is replaced.  The provider's response
    time becomes (old + new) / 2 and its error counter max(0, count - 1). *)
Theorem C7_nonstreaming_success (start_time : float) (env : post_env)
    (provider : AIProvider) (request : ChatRequest) (actual_model : string)
    (response : post_response) (body : gmap string json) :
  map_model_name (model request) provider = inr actual_model ->
  truthy (stream request) = false ->
  post_outcome env = inr response ->
  post_status_code response = 200 ->
  post_json response = inr (JObj body) ->
  let elapsed := PyFloat.sub (post_clock env) start_time in
  ∃ provider' result,
    forward_request start_time env provider request
    = (provider', inr (Result result))
    ∧ (∀ k, k ≠ "_router_info" -> result !! k = body !! k)
    ∧ (∃ info,
         result !! "_router_info" = Some (JObj info)
         ∧ info !! "provider" = Some (JStr (name provider))
         ∧ info !! "response_time" = Some (JFloat elapsed)
         ∧ info !! "timestamp" = Some (JStr (post_timestamp env))
         ∧ info !! "streaming" = Some (JBool false))
    ∧ response_time provider'
      = PyFloat.div (PyFloat.add (response_time provider) elapsed) PyFloat.two
    ∧ error_count provider' = Z.max 0 (error_count provider - 1).
Proof.
  intros Hmodel Hstream Hpost Hcode Hjson elapsed.
  rewrite (forward_request_nonstreaming _ _ _ _ _ Hmodel Hstream).
  unfold forward_nonstreaming. rewrite Hpost, Hcode, Hjson. simpl.
  do 2 eexists. split; [reflexivity|]. split; [|split].
  - intros k Hk. by rewrite lookup_insert_ne.
  - eexists. split; [apply lookup_insert_eq|]. repeat split.
  - done.
Qed.



End ForwardingFacts.

Section ForwardingExamples.

#[local] Existing Instance sample_library.

Lemma C7_nonstreaming_success_witness :
  ∃ provider' result,
    forward_request (PyFloat.lit 10)
      (sample_post (inr (mkPostResponse 200 "{...}" (inr (JObj sample_body)))))
      (set_error_count 2 (healthy deepseek)) (sample_request "gpt-4" false)
    = (provider', inr (Result result))
    ∧ result !! "id" = Some (JStr "chatcmpl-1")
    ∧ error_count provider' = 1.
Proof.
  destruct (C7_nonstreaming_success (PyFloat.lit 10)
              (sample_post (inr (mkPostResponse 200 "{...}"
                                   (inr (JObj sample_body)))))
              (set_error_count 2 (healthy deepseek))
              (sample_request "gpt-4" false) "deepseek-chat"
              (mkPostResponse 200 "{...}" (inr (JObj sample_body)))
              sample_body)
    as (p' & result & Hrun & Hkeep & _ & _ & Hcount);
    [by vm_compute | reflexivity | reflexivity | reflexivity | reflexivity |].
  exists p', result. split; [exact Hrun|]. split.
  - rewrite Hkeep by done. by vm_compute.
  - rewrite Hcount. reflexivity.
Defined.

(** C7 (as stated) fails on the code.  A field named _router_info that
    the upstream had set is replaced by the router's block; and a 200
    answer whose body is not a JSON object is not returned at all: the
    call raises and the error counter goes up. *)
Lemma C7_counterexample :
  let chained : gmap string json :=
    <["_router_info" := JStr "set by the upstream"]> sample_body in
  (∃ provider' result,
     forward_request (PyFloat.lit 10)
       (sample_post (inr (mkPostResponse 200 "{...}" (inr (JObj chained)))))
       (healthy deepseek) (sample_request "gpt-4" false)
     = (provider', inr (Result result))
     ∧ chained !! "_router_info" = Some (JStr "set by the upstream")
     ∧ result !! "_router_info" ≠ chained !! "_router_info")
  ∧ (∃ provider' e,
       forward_request (PyFloat.lit 10)
         (sample_post (inr (mkPostResponse 200 "<html>"
                              (inl (ValueError "Expecting value")))))
         (set_error_count 2 (healthy deepseek)) (sample_request "gpt-4" false)
       = (provider', inl e)
       ∧ error_count provider' = 3).
Proof.
  intros chained. split.
  - do 2 eexists. split; [vm_compute; reflexivity|].
    split; [by vm_compute|]. by vm_compute.
  - do 2 eexists. split; [vm_compute; reflexivity|]. reflexivity.
Qed.



End ForwardingExamples.

(** ** Statistics of streaming requests *)

Section HandlerFacts.

Context `{Library}.

Lemma count_usage_counters (provider_name : string) (st st' : RouterStats) :
  count_usage provider_name st = inr st' ->
  successful_requests st' = successful_requests st
  ∧ failed_requests st' = failed_requests st.
Proof.
  unfold count_usage. destruct (provider_usage st !! provider_name); [|done].
  by intros [= <-].
Qed.

Lemma chat_completions_body_streaming (st st' : RouterStats)
    (user_info : UserInfo) (providers : list AIProvider)
    (request : http_request) (env : handler_env)
    (selected : option AIProvider) (r : response) :
  chat_completions_body st user_info providers request env
  = (st', selected, inr r) ->
  is_streaming r = true ->
  successful_requests st' = successful_requests st + 1
  ∧ failed_requests st' = failed_requests st.
Proof.
  unfold chat_completions_body. intros Hbody Hstreaming.
  repeat case_match; simplify_eq; try done;
    match goal with
    | Hu : count_usage _ _ = inr _ |- _ =>
        apply count_usage_counters in Hu as [Hs Hf]
    end; simpl; by rewrite Hs, Hf.
Qed.

Lemma chat_completions_asgi_body_streaming (st st' : RouterStats)
    (providers : list AIProvider) (request : http_request) (env : handler_env)
    (selected : option AIProvider) (r : response) :
  chat_completions_asgi_body st providers request env
  = (st', selected, inr r) ->
  successful_requests st' = successful_requests st + 1
  ∧ failed_requests st' = failed_requests st.
Proof.
  unfold chat_completions_asgi_body. intros Hbody.
  repeat case_match; simplify_eq;
    match goal with
    | Hu : count_usage _ _ = inr _ |- _ =>
        apply count_usage_counters in Hu as [Hs Hf]
    end; simpl; by rewrite Hs, Hf.
Qed.

(** C10: whenever either handler answers with a streaming response
    object, on the buffered or the direct transport, the statistics it
    leaves behind already count the request as successful and not as
    failed, and they are fixed before the upstream is contacted: served
    against any upstream behaviour whatever, a connection failure, a
    timeout or a non-200 answer included, the request ends with those
    same statistics. *)
Theorem C10_streaming_counted_before_relay
    (handler : RouterStats -> UserInfo -> list AIProvider -> http_request ->
               handler_env ->
               RouterStats * UserInfo * option AIProvider * (exn + response))
    (st st' : RouterStats) (user_info user_info' : UserInfo)
    (providers : list AIProvider) (request : http_request)
    (env : handler_env) (selected : option AIProvider) (r : response) :
  handler = chat_completions ∨ handler = chat_completions_asgi ->
  handler st user_info providers request env
  = (st', user_info', selected, inr r) ->
  is_streaming r = true ->
  successful_requests st' = successful_requests st + 1
  ∧ failed_requests st' = failed_requests st
  ∧ ∀ up : upstream,
      serve handler st user_info providers request env up
      = (st', inr (run_response r up).2).
Proof.
  intros Hhandler Hrun Hstreaming.
  assert (successful_requests st' = successful_requests st + 1
          ∧ failed_requests st' = failed_requests st) as [Hs Hf].
  { destruct Hhandler as [-> | ->].
    - unfold chat_completions in Hrun.
      destruct (chat_completions_body _ _ _ _ _) as [[st1 sel] out] eqn:Hbody.
      destruct out as [e|r']; [by destruct e|].
      unfold mret, exn_ret in Hrun. simplify_eq.
      by destruct (chat_completions_body_streaming _ _ _ _ _ _ _ _ Hbody
                     Hstreaming).
    - unfold chat_completions_asgi in Hrun.
      destruct (chat_completions_asgi_body _ _ _ _) as [[st1 sel] out] eqn:Hbody.
      destruct out as [e|r']; [done|].
      unfold mret, exn_ret in Hrun. simplify_eq.
      by destruct (chat_completions_asgi_body_streaming _ _ _ _ _ _ _ Hbody). }
  split; [done|]. split; [done|].
  intros up. unfold serve. by rewrite Hrun.
Qed.

End HandlerFacts.

Section HandlerExamples.

#[local] Existing Instance sample_library.

Lemma C10_streaming_witness :
  (successful_requests
     (sample_served false (UpRaises (TimeoutException "read timed out"))).1 = 1
   ∧ failed_requests
       (sample_served false (UpRaises (TimeoutException "read timed out"))).1 = 0)
  ∧ (successful_requests
       (sample_served true (sample_upstream 503 [])).1 = 1
     ∧ failed_requests (sample_served true (sample_upstream 503 [])).1 = 0).
Proof.
  assert (∀ direct up,
            successful_requests (sample_served direct up).1 = 1
            ∧ failed_requests (sample_served direct up).1 = 0) as Hboth.
  { intros direct up. unfold sample_served.
    destruct (chat_completions initial_stats shared_user
                (map healthy initial_providers) (sample_http_request direct)
                sample_env) as [[[st' u'] sel] out] eqn:Hrun.
    assert (∃ r, out = inr r ∧ is_streaming r = true) as (r & -> & Hstreaming).
    { destruct direct; vm_compute in Hrun; simplify_eq; by eexists. }
    destruct (C10_streaming_counted_before_relay chat_completions
                initial_stats st' shared_user u'
                (map healthy initial_providers)
                (sample_http_request direct) sample_env sel r
                (or_introl eq_refl) Hrun Hstreaming) as (Hs & Hf & Hserve).
    rewrite Hserve. simpl. rewrite Hs, Hf. split; reflexivity. }
  split; apply Hboth.
Defined.

End HandlerExamples.

(** * Further properties of the code *)

(** ** Selection *)

Lemma healthy_providers_nonempty (providers : list AIProvider) :
  providers ≠ [] -> healthy_providers providers ≠ [].
Proof.
  unfold healthy_providers. intros Hne.
  by destruct (filter is_healthy_candidate providers).
Qed.

Lemma healthy_providers_subset (providers : list AIProvider) (x : AIProvider) :
  x ∈ healthy_providers providers -> x ∈ providers.
Proof.
  unfold healthy_providers.
  destruct (filter is_healthy_candidate providers) as [|q l] eqn:Hf; [done|].
  rewrite <- Hf. by intros [_ ?]%list_elem_of_filter.
Qed.

(** The selector answers "no provider" exactly when no provider is
    configured: with a non-empty list it either returns one of its
    members or raises, whatever their health. *)
Theorem select_provider_none_iff (providers : list AIProvider)
    (request : ChatRequest) (r : nat) :
  select_provider providers request r = inr None ↔ providers = [].
Proof.
  split.
  - intros Hnone. destruct (decide (providers = [])) as [|Hne]; [done|].
    assert (model_compatible_providers (model request)
              (healthy_providers providers) ≠ []) as Hc
      by by apply model_compatible_nonempty, healthy_providers_nonempty.
    by destruct (select_provider_inr providers request r None Hc Hnone)
      as (p & ? & _).
  - by intros ->.
Qed.

(** Model affinity: when some candidate of step 1 lists the requested
    model, every provider the selector can return lists it. *)
Theorem select_provider_model_affinity (providers : list AIProvider)
    (request : ChatRequest) (r : nat) (q selected : AIProvider) :
  q ∈ healthy_providers providers ->
  model request ∈ models q ->
  select_provider providers request r = inr (Some selected) ->
  model request ∈ models selected.
Proof.
  intros Hq Hmodel Hsel.
  assert (q ∈ filter (fun p => model request ∈ models p)
                     (healthy_providers providers)) as Hfilter
    by by apply list_elem_of_filter.
  assert (model_compatible_providers (model request)
            (healthy_providers providers)
          = filter (fun p => model request ∈ models p)
                   (healthy_providers providers)) as Heq.
  { unfold model_compatible_providers.
    destruct (filter _ (healthy_providers providers)); [|done].
    by apply elem_of_nil in Hfilter. }
  destruct (select_provider_inr providers request r (Some selected))
    as (p & [= <-] & Hp); [|done|].
  { rewrite Heq. intros Hnil. rewrite Hnil in Hfilter.
    by apply elem_of_nil in Hfilter. }
  rewrite Heq in Hp. by apply list_elem_of_filter in Hp as [? _].
Qed.

Lemma select_provider_model_affinity_witness :
  ∃ selected,
    select_provider (map healthy initial_providers)
      (sample_request "qwen2:7b" true) 4 = inr (Some selected)
    ∧ "qwen2:7b" ∈ models selected.
Proof.
  assert (select_provider (map healthy initial_providers)
            (sample_request "qwen2:7b" true) 4 = inr (Some (healthy ollama)))
    as Hsel by (vm_compute; reflexivity).
  exists (healthy ollama). split; [exact Hsel|].
  apply (select_provider_model_affinity (map healthy initial_providers)
           (sample_request "qwen2:7b" true) 4 (healthy ollama)
           (healthy ollama)).
  - vm_compute. do 2 right. left.
  - vm_compute. right. left.
  - exact Hsel.
Defined.

Lemma elem_of_pool_intro (candidates : list AIProvider) (p : AIProvider) :
  p ∈ candidates -> no_overflow p ->
  p ∈ flat_map (fun q => replicate (copies q) q) candidates.
Proof.
  intros Hin Hp. induction candidates as [|q rest IH]; simpl.
  - by apply elem_of_nil in Hin.
  - apply elem_of_app. apply elem_of_cons in Hin as [->|Hin].
    + left. apply elem_of_replicate. split; [done|].
      apply copies_pos in Hp. lia.
    + right. by apply IH.
Qed.

(** No candidate is ever shut out by its weight: every candidate that
    reaches the weighting step is returned for some draw, however slow
    it is and however many errors it has. *)
Theorem select_provider_reaches_every_candidate (providers : list AIProvider)
    (request : ChatRequest) (p : AIProvider) :
  let candidates :=
    model_compatible_providers (model request) (healthy_providers providers) in
  Forall no_overflow candidates ->
  p ∈ candidates ->
  ∃ r, select_provider providers request r = inr (Some p).
Proof.
  intros candidates Hall Hp.
  assert (no_overflow p) as Hno
    by (rewrite Forall_forall in Hall; by apply Hall).
  pose proof (elem_of_pool_intro candidates p Hp Hno) as Hpool.
  apply list_elem_of_lookup in Hpool as [i Hi].
  exists i.
  assert (candidates ≠ []) as Hne.
  { intros Hnil. rewrite Hnil in Hp. by apply elem_of_nil in Hp. }
  destruct (select_provider_pool providers request i Hne Hall) as [_ ->].
  subst candidates. cbv zeta.
  by erewrite random_choice_lookup by exact Hi.
Qed.

Lemma select_provider_reaches_witness :
  let troubled :=
    set_error_count 4 (set_response_time (PyFloat.lit 30) (healthy ollama)) in
  ∃ r, select_provider [healthy deepseek; healthy lingyiwanwu; troubled]
         (sample_request "gpt-4" true) r = inr (Some troubled).
Proof.
  intros troubled.
  apply (select_provider_reaches_every_candidate
           [healthy deepseek; healthy lingyiwanwu; troubled]
           (sample_request "gpt-4" true) troubled).
  - repeat constructor; eexists; vm_compute; reflexivity.
  - vm_compute. do 2 right. left.
Defined.

(** ** What the operations do to a provider record *)

Section ProviderInvariants.

Context `{Library}.

Lemma relay_streamer (chunks : list bytes) (self : LowLevelASGIStreamer.t)
    (sent : list asgi_message) :
  let self' := (LowLevelASGIStreamer.relay chunks self sent).1 in
  let relayed := filter (fun c : bytes => nonempty c) chunks in
  LowLevelASGIStreamer.chunks_sent self'
  = LowLevelASGIStreamer.chunks_sent self + Z.of_nat (length relayed)
  ∧ LowLevelASGIStreamer.total_bytes_sent self'
    = LowLevelASGIStreamer.total_bytes_sent self
      + Z.of_nat (sum_list_with String.length relayed)
  ∧ LowLevelASGIStreamer.is_headers_sent self'
    = LowLevelASGIStreamer.is_headers_sent self
  ∧ LowLevelASGIStreamer.streamer_error_count self'
    = LowLevelASGIStreamer.streamer_error_count self
  ∧ LowLevelASGIStreamer.connection_id self'
    = LowLevelASGIStreamer.connection_id self.
Proof.
  revert self sent. induction chunks as [|c rest IH]; intros self sent.
  - simpl. repeat split; lia.
  - simpl. destruct (nonempty c) eqn:Hc.
    + rewrite filter_cons_True by (rewrite Hc; exact I).
      destruct (IH (LowLevelASGIStreamer.count_chunk c self)
                   (sent ++ [HttpResponseBody c true]))
        as (Hn & Hb & Hh & He & Hi).
      simpl in *. rewrite Hn, Hb, Hh, He, Hi. repeat split; lia.
    + rewrite filter_cons_False by (rewrite Hc; intros []). apply IH.
Qed.

(** The health probe, both streaming transports and the forwarder
    leave the configured part of a provider (name, URL, credential,
    model list, weight) as it is; and of these four only the probe ever
    writes the status and the last-check time. *)
Theorem operations_keep_configuration (provider : AIProvider)
    (probe : probe_env) (start_time : float) (up : upstream)
    (self : LowLevelASGIStreamer.t) (request : ChatRequest) (env : post_env) :
  let untouched p' :=
    same_configuration provider p'
    ∧ status p' = status provider
    ∧ last_check p' = last_check provider in
  same_configuration provider (health_check_provider probe provider).1
  ∧ untouched (stream_generator start_time provider up).1
  ∧ untouched
      (LowLevelASGIStreamer.stream_response self provider request up).1.2
  ∧ untouched (forward_request start_time env provider request).1.
Proof.
  intros untouched. subst untouched. cbv beta.
  split; [|split; [|split]].
  - unfold health_check_provider. by repeat case_match.
  - unfold stream_generator, generator_except. by repeat case_match.
  - unfold LowLevelASGIStreamer.stream_response,
      LowLevelASGIStreamer.stream_except.
    by repeat case_match.
  - unfold forward_request, forward_body, forward_nonstreaming.
    repeat case_match; simplify_eq; done.
Qed.

(** The consecutive-error counter never goes below zero: each of the
    four operations that write it keeps a non-negative counter
    non-negative. *)
Theorem error_count_stays_non_negative (provider : AIProvider)
    (probe : probe_env) (start_time : float) (up : upstream)
    (self : LowLevelASGIStreamer.t) (request : ChatRequest) (env : post_env) :
  0 <= error_count provider ->
  0 <= error_count (health_check_provider probe provider).1
  ∧ 0 <= error_count (stream_generator start_time provider up).1
  ∧ 0 <= error_count
           (LowLevelASGIStreamer.stream_response self provider request up).1.2
  ∧ 0 <= error_count (forward_request start_time env provider request).1.
Proof.
  intros Hpos. repeat split.
  - unfold health_check_provider.
    repeat case_match; simpl; lia.
  - unfold stream_generator, generator_except.
    repeat case_match; simpl; lia.
  - unfold LowLevelASGIStreamer.stream_response,
      LowLevelASGIStreamer.stream_except.
    repeat case_match; simpl; lia.
  - unfold forward_request, forward_body, forward_nonstreaming.
    repeat case_match; simplify_eq; simpl; lia.
Qed.

(** The direct relay records no failure against the provider: unless
    the stream completes cleanly (status 200, clean end), the provider
    record comes out of [stream_response] exactly as it went in; its
    failures are counted on the streamer object only. *)
Theorem direct_relay_failure_leaves_provider (self : LowLevelASGIStreamer.t)
    (provider : AIProvider) (request : ChatRequest) (up : upstream) :
  let '(self', provider', _) :=
    LowLevelASGIStreamer.stream_response self provider request up in
  provider' = provider
  ∨ (provider' = set_error_count (Z.max 0 (error_count provider - 1)) provider
     ∧ LowLevelASGIStreamer.streamer_error_count self'
       = LowLevelASGIStreamer.streamer_error_count self
     ∧ ∃ response, up = UpResponds response
                   ∧ up_status_code response = 200
                   ∧ up_end response = EndOfStream).
Proof.
  unfold LowLevelASGIStreamer.stream_response,
    LowLevelASGIStreamer.stream_except.
  destruct (LowLevelASGIStreamer.map_model_name _ _) as [e|m].
  { repeat case_match; simplify_eq; by left. }
  destruct up as [e|response].
  { repeat case_match; simplify_eq; by left. }
  destruct (decide (up_status_code response ≠ 200)) as [Hne|Heq].
  { repeat case_match; simplify_eq; by left. }
  match goal with
  | |- context [LowLevelASGIStreamer.relay ?c ?s ?m] =>
      pose proof (relay_streamer c s m) as Hr;
      destruct (LowLevelASGIStreamer.relay c s m) as [self1 sent1]
  end.
  simpl in Hr. destruct Hr as (_ & _ & _ & Herr & _).
  destruct (up_end response) as [|e] eqn:Hend.
  - right. split; [done|]. split; [by rewrite Herr|].
    exists response. split; [done|]. split; [|done].
    by destruct (decide (up_status_code response = 200)).
  - repeat case_match; simplify_eq; by left.
Qed.

End ProviderInvariants.

Section ProviderInvariantExamples.

#[local] Existing Instance sample_library.

Lemma error_count_non_negative_witness :
  0 <= error_count
         (stream_generator (PyFloat.lit 10) (healthy deepseek)
            (sample_upstream 200 ["data: a"])).1
  ∧ 0 <= error_count
           (forward_request (PyFloat.lit 10)
              (sample_post (inl (ConnectError "refused")))
              (healthy deepseek) (sample_request "gpt-4" false)).1.
Proof.
  destruct (error_count_stays_non_negative (healthy deepseek)
              (mkProbeEnv (PyFloat.lit 1) (inr 200) (PyFloat.lit 2)
                          (PyFloat.lit 2))
              (PyFloat.lit 10) (sample_upstream 200 ["data: a"])
              sample_streamer (sample_request "gpt-4" false)
              (sample_post (inl (ConnectError "refused"))))
    as (_ & Hgen & _ & Hfwd); [simpl; lia|].
  split; [exact Hgen | exact Hfwd].
Defined.

End ProviderInvariantExamples.

(** ** The two transports side by side *)

Section TransportComparison.

Context `{Library}.

Lemma generator_except_event (e : exn) (provider : AIProvider)
    (yielded : list bytes) :
  ∃ envelope,
    generator_except e provider yielded
    = (set_error_count (error_count provider + 1) provider,
       yielded ++ [sse_event envelope])
    ∧ is_error_envelope envelope (error_kind e) (name provider) None.
Proof.
  unfold generator_except.
  destruct e; eexists; (split; [reflexivity|]);
    unfold is_error_envelope; repeat split; try reflexivity; by eexists.
Qed.

Lemma stream_except_event (e : exn) (self : LowLevelASGIStreamer.t)
    (provider : AIProvider) (sent : list asgi_message) :
  LowLevelASGIStreamer.is_headers_sent self = true ->
  ∃ envelope,
    LowLevelASGIStreamer.stream_except e self provider sent
    = (LowLevelASGIStreamer.count_error self, provider,
       sent ++ [HttpResponseBody (sse_event envelope) false])
    ∧ is_error_envelope envelope (error_kind e) (name provider) None.
Proof.
  intros Hsent.
  unfold LowLevelASGIStreamer.stream_except,
    LowLevelASGIStreamer._send_error_response.
  destruct e; simpl; rewrite Hsent; eexists; (split; [reflexivity|]);
    unfold is_error_envelope; repeat split; try reflexivity; by eexists.
Qed.




(** The shape of everything [stream_response] can send: the response
    start, one announced body per relayed chunk, one final body. *)
Lemma stream_response_shape (self : LowLevelASGIStreamer.t)
    (provider : AIProvider) (request : ChatRequest) (up : upstream) :
  ∃ headers final,
    (LowLevelASGIStreamer.stream_response self provider request up).2
    = HttpResponseStart 200 headers
      :: ((fun b => HttpResponseBody b true)
            <$> match LowLevelASGIStreamer.map_model_name (model request)
                        provider with
                | inr _ => upstream_content up
                | inl _ => []
                end)
      ++ [HttpResponseBody final false].
Proof.
  unfold LowLevelASGIStreamer.stream_response, upstream_content.
  set (self0 := LowLevelASGIStreamer.set_is_headers_sent true self).
  set (start := [HttpResponseStart 200 _]).
  assert (LowLevelASGIStreamer.is_headers_sent self0 = true) as Hflag by done.
  destruct (LowLevelASGIStreamer.map_model_name _ _) as [e|m] eqn:Hmodel.
  { destruct (stream_except_event e self0 provider start Hflag)
      as (envelope & -> & _).
    by eexists _, _. }
  destruct up as [e|response].
  { destruct (stream_except_event e self0 provider start Hflag)
      as (envelope & -> & _).
    by eexists _, _. }
  destruct (decide (up_status_code response = 200)) as [Heq|Hne].
  2: { rewrite decide_True by done.
       destruct (up_aread response) as [e|error_text].
       - destruct (stream_except_event e self0 provider start Hflag)
           as (envelope & -> & _).
         by eexists _, _.
       - by eexists _, _. }
  rewrite decide_False by (by intros ?).
  pose proof (relay_sends (up_chunks response) self0 start) as Hsent.
  pose proof (relay_streamer (up_chunks response) self0 start) as Hself.
  destruct (LowLevelASGIStreamer.relay (up_chunks response) self0 start)
    as [self1 sent1].
  simpl in Hsent, Hself. destruct Hself as (_ & _ & Hflag1 & _).
  rewrite ?Hflag in Hflag1. subst sent1.
  destruct (up_end response) as [|e].
  - eexists _, _. simpl. subst start. rewrite <- ?app_assoc. reflexivity.
  - match goal with
    | |- context [LowLevelASGIStreamer.stream_except e ?s ?p ?m] =>
        destruct (stream_except_event e s p m Hflag1) as (envelope & -> & _)
    end.
    eexists _, _. simpl. subst start. rewrite <- ?app_assoc. reflexivity.
Qed.

(** Whatever the upstream does, and even when no request can be built
    for the provider, the direct relay hands the caller a well-formed
    response: one response start with status 200, bodies that announce
    more, and exactly one closing body. *)
Theorem stream_response_well_formed (self : LowLevelASGIStreamer.t)
    (provider : AIProvider) (request : ChatRequest) (up : upstream) :
  well_formed_response
    (LowLevelASGIStreamer.stream_response self provider request up).2.
Proof.
  destruct (stream_response_shape self provider request up)
    as (headers & final & Heq).
  by eexists headers, _, final.
Qed.



(** A failure in mid-stream retracts nothing: when a 200 answer breaks
    off with an exception, each transport has delivered the chunks
    received so far and closes with exactly one error event of the
    exception's kind; the generator adds one to the provider's error
    counter, the direct relay to the streamer's own. *)
Theorem midstream_failure_keeps_content (start_time : float)
    (self : LowLevelASGIStreamer.t) (provider : AIProvider)
    (request : ChatRequest) (actual_model : string)
    (response : upstream_response) (e : exn) :
  LowLevelASGIStreamer.map_model_name (model request) provider
  = inr actual_model ->
  up_status_code response = 200 ->
  up_end response = StreamRaises e ->
  let relayed := filter (fun c : bytes => nonempty c) (up_chunks response) in
  let '(provider_g, yielded) :=
    stream_generator start_time provider (UpResponds response) in
  let '(self_d, provider_d, sent) :=
    LowLevelASGIStreamer.stream_response self provider request
      (UpResponds response) in
  (∃ envelope,
     yielded = relayed ++ [sse_event envelope]
     ∧ is_error_envelope envelope (error_kind e) (name provider) None)
  ∧ error_count provider_g = error_count provider + 1
  ∧ (∃ headers envelope,
       sent = HttpResponseStart 200 headers
              :: ((fun c => HttpResponseBody c true) <$> relayed)
              ++ [HttpResponseBody (sse_event envelope) false]
       ∧ is_error_envelope envelope (error_kind e) (name provider) None)
  ∧ provider_d = provider
  ∧ LowLevelASGIStreamer.streamer_error_count self_d
    = LowLevelASGIStreamer.streamer_error_count self + 1.
Proof.
  intros Hmodel Hcode Hend relayed.
  unfold stream_generator, LowLevelASGIStreamer.stream_response.
  rewrite Hmodel, !decide_False by (by intros ?). rewrite Hend.
  pose proof (generator_relay_yields (up_chunks response) 0 0 []) as Hg.
  destruct (generator_relay (up_chunks response) 0 0 []) as [[n b] yielded].
  simpl in Hg. subst yielded.
  match goal with
  | |- context [generator_except e ?p ?y] =>
      destruct (generator_except_event e p y) as (env_g & -> & Henv_g)
  end.
  match goal with
  | |- context [LowLevelASGIStreamer.relay ?c ?s ?m] =>
      pose proof (relay_sends c s m) as Hd;
      pose proof (relay_streamer c s m) as Hs;
      destruct (LowLevelASGIStreamer.relay c s m) as [self1 sent1]
  end.
  simpl in Hd, Hs. destruct Hs as (_ & _ & Hflag & Herr & _). subst sent1.
  match goal with
  | |- context [LowLevelASGIStreamer.stream_except e ?s ?p ?m] =>
      destruct (stream_except_event e s p m Hflag) as (env_d & -> & Henv_d)
  end.
  split; [by exists env_g|]. split; [done|].
  split; [eexists _, env_d; split; [simpl; by rewrite <- ?app_assoc | done]|].
  split; [done|]. simpl. by rewrite Herr.
Qed.

(** The streamer's counters tell what was relayed: after a call on a
    200 answer, [chunks_sent] has grown by the number of non-empty
    chunks and [total_bytes_sent] by their total length, whether the
    stream ended cleanly or not; empty chunks are not counted. *)
Theorem streamer_counts_relayed_chunks (self : LowLevelASGIStreamer.t)
    (provider : AIProvider) (request : ChatRequest) (actual_model : string)
    (response : upstream_response) :
  LowLevelASGIStreamer.map_model_name (model request) provider
  = inr actual_model ->
  up_status_code response = 200 ->
  let relayed := filter (fun c : bytes => nonempty c) (up_chunks response) in
  let self' :=
    (LowLevelASGIStreamer.stream_response self provider request
       (UpResponds response)).1.1 in
  LowLevelASGIStreamer.chunks_sent self'
  = LowLevelASGIStreamer.chunks_sent self + Z.of_nat (length relayed)
  ∧ LowLevelASGIStreamer.total_bytes_sent self'
    = LowLevelASGIStreamer.total_bytes_sent self
      + Z.of_nat (sum_list_with String.length relayed).
Proof.
  intros Hmodel Hcode relayed self'. subst self'.
  unfold LowLevelASGIStreamer.stream_response.
  rewrite Hmodel, decide_False by (by intros ?).
  match goal with
  | |- context [LowLevelASGIStreamer.relay ?c ?s ?m] =>
      pose proof (relay_streamer c s m) as Hs;
      destruct (LowLevelASGIStreamer.relay c s m) as [self1 sent1]
  end.
  simpl in Hs. destruct Hs as (Hn & Hb & Hflag & _).
  destruct (up_end response) as [|e].
  - simpl. by rewrite Hn, Hb.
  - destruct (stream_except_event e self1 provider sent1 Hflag)
      as (envelope & -> & _).
    simpl. by rewrite Hn, Hb.
Qed.

End TransportComparison.

Section TransportComparisonExamples.

#[local] Existing Instance sample_library.


Lemma midstream_failure_witness :
  error_count
    (stream_generator (PyFloat.lit 10) (healthy deepseek)
       (UpResponds broken_stream)).1 = 1
  ∧ (LowLevelASGIStreamer.stream_response sample_streamer (healthy deepseek)
       (sample_request "gpt-4" true) (UpResponds broken_stream)).1.2
    = healthy deepseek.
Proof.
  pose proof (midstream_failure_keeps_content (PyFloat.lit 10)
                sample_streamer (healthy deepseek)
                (sample_request "gpt-4" true) "deepseek-chat" broken_stream
                (TimeoutException "read timed out")) as Hfail.
  destruct (stream_generator (PyFloat.lit 10) (healthy deepseek)
              (UpResponds broken_stream)) as [pg yielded].
  destruct (LowLevelASGIStreamer.stream_response sample_streamer
              (healthy deepseek) (sample_request "gpt-4" true)
              (UpResponds broken_stream)) as [[sd pd] sent].
  destruct Hfail as (_ & Hg & _ & Hd & _);
    [by vm_compute | reflexivity | reflexivity |].
  simpl. by rewrite Hg, Hd.
Defined.

Lemma streamer_counts_witness :
  let self' :=
    (LowLevelASGIStreamer.stream_response sample_streamer (healthy deepseek)
       (sample_request "gpt-4" true) (UpResponds broken_stream)).1.1 in
  LowLevelASGIStreamer.chunks_sent self' = 2
  ∧ LowLevelASGIStreamer.total_bytes_sent self' = 15.
Proof.
  intros self'.
  destruct (streamer_counts_relayed_chunks sample_streamer (healthy deepseek)
              (sample_request "gpt-4" true) "deepseek-chat" broken_stream)
    as [Hn Hb]; [by vm_compute | reflexivity |].
  subst self'. rewrite Hn, Hb. split; reflexivity.
Defined.

End TransportComparisonExamples.

(** ** A round of health probes *)

Lemma probe_healthy_iff (env : probe_env) (provider : AIProvider) :
  status (health_check_provider env provider).1 = HEALTHY
  ↔ models provider ≠ [] ∧ probe_post env = inr 200.
Proof.
  unfold health_check_provider.
  destruct (models provider) as [|m ms]; simpl.
  - split; [done | by intros [? _]].
  - destruct (probe_post env) as [e|code]; simpl.
    + split; [done | by intros [_ ?]].
    + destruct (decide (code = 200)) as [->|Hne]; simpl.
      * done.
      * split; [done|]. intros [_ [= ?]]. done.
Qed.

Lemma probe_healthy_candidate (env : probe_env) (provider : AIProvider) :
  status (health_check_provider env provider).1 = HEALTHY ->
  is_healthy_candidate (health_check_provider env provider).1.
Proof.
  intros Hs. split; [done|]. revert Hs.
  unfold health_check_provider.
  repeat case_match; simpl; intros; simplify_eq; lia.
Qed.

Lemma health_check_status (providers : list AIProvider) (st : RouterStats)
    (mode : string) :
  health_check providers st mode !! "status" = Some (JStr "healthy")
  ↔ ∃ p, p ∈ providers ∧ status p = HEALTHY.
Proof.
  unfold health_check.
  assert (∀ v w x y : json,
            (list_to_map [("status", v); ("providers", w); ("stats", x);
                          ("auth_mode", y)] : gmap string json) !! "status"
            = Some v) as Hlookup by (intros; reflexivity).
  rewrite Hlookup.
  destruct (filter (fun p => status p = HEALTHY) providers) as [|q l] eqn:Hf;
    simpl.
  - split; [done|]. intros (p & Hin & Hs).
    assert (p ∈ filter (fun p => status p = HEALTHY) providers) as Hp
      by by apply list_elem_of_filter.
    rewrite Hf in Hp. by apply elem_of_nil in Hp.
  - split; [|done]. intros _. exists q.
    assert (q ∈ filter (fun p => status p = HEALTHY) providers) as Hq
      by (rewrite Hf; left).
    by apply list_elem_of_filter in Hq as [? ?].
Qed.

(** A round of probes rewrites the health picture from scratch: after
    it, the [/health] endpoint reports "healthy" exactly when some
    provider that has a model answered its probe with 200 in this round,
    whatever the statuses were before. *)
Theorem health_after_cycle (envs : nat -> probe_env)
    (providers : list AIProvider) (st : RouterStats) (mode : string) :
  health_check (health_check_cycle envs providers).1 st mode !! "status"
  = Some (JStr "healthy")
  ↔ ∃ i p, providers !! i = Some p ∧ models p ≠ []
           ∧ probe_post (envs i) = inr 200.
Proof.
  rewrite health_check_status. unfold health_check_cycle. simpl. split.
  - intros (p' & Hin & Hs).
    apply elem_of_lookup_imap in Hin as (i & p & -> & Hp).
    apply probe_healthy_iff in Hs as [? ?]. by exists i, p.
  - intros (i & p & Hp & Hm & H200).
    exists (health_check_provider (envs i) p).1. split.
    + by apply (elem_of_lookup_imap_2
                  (fun i provider => (health_check_provider (envs i) provider).1)).
    + by apply probe_healthy_iff.
Qed.

(** After a round in which some provider with a model answered 200,
    the selector only returns providers that answered 200 in that
    round. *)
Theorem selection_after_cycle (envs : nat -> probe_env)
    (providers : list AIProvider) (request : ChatRequest) (r : nat)
    (selected : AIProvider) :
  (∃ i p, providers !! i = Some p ∧ models p ≠ []
          ∧ probe_post (envs i) = inr 200) ->
  select_provider (health_check_cycle envs providers).1 request r
  = inr (Some selected) ->
  ∃ i p, providers !! i = Some p
         ∧ selected = (health_check_provider (envs i) p).1
         ∧ probe_post (envs i) = inr 200.
Proof.
  intros (j & q & Hq & Hm & H200) Hsel.
  set (probed := (health_check_cycle envs providers).1) in *.
  assert (∃ p', p' ∈ probed ∧ is_healthy_candidate p') as Hex.
  { exists (health_check_provider (envs j) q).1. split.
    - by apply (elem_of_lookup_imap_2
                  (fun i provider => (health_check_provider (envs i) provider).1)).
    - by apply probe_healthy_candidate, probe_healthy_iff. }
  destruct (healthy_providers_filter probed Hex) as [Heq Hne].
  destruct (select_provider_inr probed request r (Some selected))
    as (p' & [= <-] & Hin); [|done|].
  { by apply model_compatible_nonempty; rewrite Heq. }
  apply model_compatible_subset in Hin. rewrite Heq in Hin.
  apply list_elem_of_filter in Hin as [[Hs _] Hin].
  apply elem_of_lookup_imap in Hin as (i & p & -> & Hp).
  apply probe_healthy_iff in Hs as [_ ?]. by exists i, p.
Qed.

Lemma selection_after_cycle_witness :
  ∃ i p, initial_providers !! i = Some p
         ∧ (health_check_provider (sample_probes 1) lingyiwanwu).1
           = (health_check_provider (sample_probes i) p).1
         ∧ probe_post (sample_probes i) = inr 200.
Proof.
  apply (selection_after_cycle sample_probes initial_providers
           (sample_request "gpt-4" true) 7
           (health_check_provider (sample_probes 1) lingyiwanwu).1).
  - exists 1%nat, lingyiwanwu. by vm_compute.
  - vm_compute. reflexivity.
Defined.

(** ** Model names: edge cases *)

Lemma map_model_name_without_models_aux (requested_model : string)
    (provider : AIProvider) :
  models provider = [] ->
  map_model_name requested_model provider = inl IndexError.
Proof.
  intros Hnone. unfold map_model_name. rewrite Hnone.
  destruct (model_mapping !! requested_model); [done|].
  by rewrite decide_False by apply not_elem_of_nil.
Qed.

(** A provider without models cannot be mapped to at all: the mapper
    raises [IndexError] for every requested name, an alias with a
    configured translation included, because the default is read before
    the table is consulted. *)
Theorem map_model_name_without_models (requested_model : string)
    (provider : AIProvider) :
  models provider = [] ->
  map_model_name requested_model provider = inl IndexError
  ∧ LowLevelASGIStreamer.map_model_name requested_model provider
    = inl IndexError.
Proof.
  intros Hnone.
  unfold LowLevelASGIStreamer.map_model_name, map_model_name.
  rewrite Hnone. split.
  - destruct (model_mapping !! requested_model); [done|].
    by rewrite decide_False by apply not_elem_of_nil.
  - destruct (LowLevelASGIStreamer.model_mapping !! requested_model); [done|].
    by rewrite decide_False by apply not_elem_of_nil.
Qed.

Lemma map_model_name_without_models_witness :
  map_model_name "gpt-4"
    (new_provider "deepseek" "http://x" "k" [] 1) = inl IndexError.
Proof.
  by destruct (map_model_name_without_models "gpt-4"
                 (new_provider "deepseek" "http://x" "k" [] 1) eq_refl).
Defined.

(** The alias table agrees with the shipped catalogue: for each of the
    three configured providers, in whatever live state, every requested
    name is mapped to a model that this provider lists. *)
Theorem map_model_name_stays_in_catalogue (requested_model : string)
    (configured provider : AIProvider) :
  configured ∈ initial_providers ->
  same_configuration configured provider ->
  ∃ actual_model,
    map_model_name requested_model provider = inr actual_model
    ∧ actual_model ∈ models provider.
Proof.
  intros Hin (Hname & _ & _ & Hmodels & _).
  assert (map_model_name requested_model provider
          = map_model_name requested_model configured) as ->
    by (unfold map_model_name; by rewrite Hname, Hmodels).
  rewrite Hmodels. clear provider Hname Hmodels.
  assert (configured = deepseek ∨ configured = lingyiwanwu
          ∨ configured = ollama) as Hcases.
  { unfold initial_providers in Hin.
    repeat (apply elem_of_cons in Hin as [->|Hin]); auto.
    by apply elem_of_nil in Hin. }
  clear Hin.
  destruct (decide (requested_model
                    ∈ ["gpt-3.5-turbo"; "gpt-4"; "code-assistant"]))
    as [Halias|Hplain].
  - assert (requested_model = "gpt-3.5-turbo" ∨ requested_model = "gpt-4"
            ∨ requested_model = "code-assistant") as Hal.
    { repeat (apply elem_of_cons in Halias as [->|Halias]); auto.
      by apply elem_of_nil in Halias. }
    clear Halias.
    destruct Hcases as [-> | [-> | ->]];
      destruct Hal as [-> | [-> | ->]];
      eexists; (split; [vm_compute; reflexivity|]);
      solve [repeat first [apply list_elem_of_here
                          | apply list_elem_of_further]].
  - assert (model_mapping !! requested_model = None) as Hnone.
    { destruct (model_mapping !! requested_model) eqn:Hm; [|done].
      destruct Hplain. apply model_mapping_aliases. by rewrite Hm. }
    unfold map_model_name. rewrite Hnone.
    destruct (decide (requested_model ∈ models configured)) as [Hyes|Hno].
    + by eexists.
    + destruct Hcases as [-> | [-> | ->]];
        eexists; (split; [reflexivity|]); apply list_elem_of_here.
Qed.

Lemma map_model_name_stays_in_catalogue_witness :
  ∃ actual_model,
    map_model_name "code-assistant"
      (set_error_count 3 (set_status UNHEALTHY ollama)) = inr actual_model
    ∧ actual_model ∈ models ollama.
Proof.
  apply (map_model_name_stays_in_catalogue "code-assistant" ollama
           (set_error_count 3 (set_status UNHEALTHY ollama))).
  - do 2 right. left.
  - by repeat split.
Defined.

(** ** The gate across requests *)

(** In shared-secret mode the quota never bites: a request with the
    shared key is always admitted, on a fresh record with a zero count,
    every other key is refused as invalid, and the configuration is left
    as it is, so no usage accumulates from one request to the next. *)
Theorem shared_mode_never_limits (cfg : auth_config) (now today key : string) :
  auth_mode cfg = "shared" ->
  authenticate cfg now today key
  = (cfg,
     if decide (key = shared_api_key cfg)
     then inr (new_user "shared_user" key 999999 now)
     else inl (HTTPException 401 "Invalid API key")).
Proof.
  intros Hmode. unfold authenticate, verify_api_key.
  rewrite decide_True by done.
  destruct (decide (key = shared_api_key cfg)) as [Hkey|Hkey]; [|done].
  unfold check_quota, store_user. simpl.
  rewrite (decide_True (P := auth_mode cfg = "shared")) by done.
  by destruct (decide (_ ≠ today)).
Qed.

Lemma shared_mode_never_limits_witness :
  let cfg := mkAuthConfig "shared" "sk-8d6804b011614dba7bd065f8644514b" ∅ in
  (authenticate cfg "2024-12-20T08:00:00" "2024-12-20"
     "sk-8d6804b011614dba7bd065f8644514b").2
  = inr (new_user "shared_user" "sk-8d6804b011614dba7bd065f8644514b" 999999
           "2024-12-20T08:00:00").
Proof.
  intros cfg.
  by rewrite (shared_mode_never_limits cfg "2024-12-20T08:00:00" "2024-12-20"
                "sk-8d6804b011614dba7bd065f8644514b" eq_refl).
Defined.

(** Authenticating one key never touches another user's record, nor
    the mode or the shared key; and the only change it can make to the
    record of the key itself is the reset of its daily count. *)
Theorem authenticate_touches_one_record (cfg : auth_config)
    (now today key : string) :
  let cfg' := (authenticate cfg now today key).1 in
  auth_mode cfg' = auth_mode cfg
  ∧ shared_api_key cfg' = shared_api_key cfg
  ∧ (∀ key', key' ≠ key -> users_db cfg' !! key' = users_db cfg !! key')
  ∧ (users_db cfg' !! key = users_db cfg !! key
     ∨ ∃ u, users_db cfg !! key = Some u
            ∧ users_db cfg' !! key = Some (set_requests_today 0 u)).
Proof.
  unfold authenticate, verify_api_key, store_user.
  destruct (decide (auth_mode cfg = "shared")) as [Hs|Hs].
  { destruct (decide (key = shared_api_key cfg)); [|simpl; by auto].
    unfold check_quota. simpl.
    destruct (decide (_ ≠ today)); simpl; by auto. }
  destruct (decide (auth_mode cfg = "multi_user")) as [Hm|Hm]; [|by auto].
  destruct (users_db cfg !! key) as [u|] eqn:Hu; simpl; [|by auto].
  destruct (is_active u); simpl; [|by rewrite Hu; auto].
  unfold check_quota.
  destruct (decide (String.substring 0 10 (last_request u) ≠ today));
    simpl; destruct (bool_decide _); simpl;
    (split; [done|]; split; [done|]; split;
     [by intros key' Hne; rewrite lookup_insert_ne|]).
  all: rewrite lookup_insert_eq, ?Hu; eauto.
Qed.

Lemma authenticate_touches_one_record_witness :
  users_db
    (authenticate sample_auth "2024-12-20T08:00:00" "2024-12-20" "sk-full").1
    !! "sk-busy"
  = users_db sample_auth !! "sk-busy".
Proof.
  destruct (authenticate_touches_one_record sample_auth
              "2024-12-20T08:00:00" "2024-12-20" "sk-full")
    as (_ & _ & Hother & _).
  apply Hother. discriminate.
Defined.

(** Checking the quota twice is checking it once: the reset does not
    move the last-request time, so a second check on the same date
    finds the same record and gives the same answer. *)
Theorem check_quota_idempotent (today : string) (user_info : UserInfo) :
  check_quota today (check_quota today user_info).1
  = check_quota today user_info.
Proof.
  unfold check_quota.
  destruct (decide (String.substring 0 10 (last_request user_info) ≠ today))
    as [Hnew|Hsame]; simpl.
  - by rewrite decide_True.
  - by rewrite decide_False.
Qed.

Lemma quota_request_step (today now : string) (u : UserInfo) :
  String.substring 0 10 now = today ->
  let k := requests_counted today u in
  let '(u', ok) := quota_request today now u in
  daily_limit u' = daily_limit u
  ∧ ok = bool_decide (k < daily_limit u)
  ∧ requests_counted today u' = (if ok then k + 1 else k).
Proof.
  intros Hnow. unfold quota_request, check_quota, requests_counted.
  destruct (decide (String.substring 0 10 (last_request u) ≠ today))
    as [Hnew|Hsame]; simpl.
  - destruct (bool_decide (0 < daily_limit u)) eqn:Hok; simpl.
    + rewrite decide_False by (by intros ?). done.
    + rewrite decide_True by done. done.
  - destruct (bool_decide (requests_today u < daily_limit u)) eqn:Hok; simpl.
    + rewrite decide_False by (by intros ?). done.
    + rewrite decide_False by done. done.
Qed.

Lemma quota_requests_counted (n : nat) (today now : string) (u : UserInfo) :
  String.substring 0 10 now = today ->
  let k := requests_counted today u in
  daily_limit (quota_requests n today now u) = daily_limit u
  ∧ requests_counted today (quota_requests n today now u)
    = Z.max k (Z.min (k + Z.of_nat n) (daily_limit u)).
Proof.
  intros Hnow. revert u. induction n as [|n IH]; intros u k.
  - simpl. split; [done|]. subst k. lia.
  - cbn [quota_requests]. pose proof (quota_request_step today now u Hnow) as Hstep.
    destruct (quota_request today now u) as [u' ok]. cbn [fst snd] in *.
    destruct Hstep as (Hlimit & Hok & Hcount).
    destruct (IH u') as [IHl IHc].
    rewrite IHl, IHc, Hlimit, Hcount. split; [done|]. subst k ok.
    case_bool_decide; lia.
Qed.

(** The daily budget: of [n] requests made on one date by a user who
    starts that date without a counted request, exactly the first
    [daily_limit] are admitted and counted (none when the limit is not
    positive), and the next one is admitted just when the limit is not
    yet reached. *)
Theorem daily_budget (n : nat) (today now : string) (user_info : UserInfo) :
  String.substring 0 10 now = today ->
  requests_counted today user_info = 0 ->
  requests_counted today (quota_requests n today now user_info)
  = Z.max 0 (Z.min (Z.of_nat n) (daily_limit user_info))
  ∧ (quota_request today now (quota_requests n today now user_info)).2
    = bool_decide (Z.of_nat n < daily_limit user_info).
Proof.
  intros Hnow Hzero.
  destruct (quota_requests_counted n today now user_info Hnow) as [Hlimit Hcount].
  rewrite Hzero in Hcount. simpl in Hcount. split; [by rewrite Hcount|].
  pose proof (quota_request_step today now (quota_requests n today now user_info) Hnow)
    as Hstep.
  destruct (quota_request today now (quota_requests n today now user_info)) as [u' ok].
  simpl in *. destruct Hstep as (_ & -> & _).
  rewrite Hcount, Hlimit.
  apply bool_decide_ext. lia.
Qed.

Lemma daily_budget_witness :
  let user := sample_user "demo" "sk-demo" 3 0 "2024-12-19T23:00:00" true in
  requests_counted "2024-12-20"
    (quota_requests 5 "2024-12-20" "2024-12-20T09:00:00" user) = 3
  ∧ (quota_request "2024-12-20" "2024-12-20T09:00:00"
       (quota_requests 5 "2024-12-20" "2024-12-20T09:00:00" user)).2 = false.
Proof.
  intros user.
  destruct (daily_budget 5 "2024-12-20" "2024-12-20T09:00:00" user)
    as [Hcount Hnext]; [reflexivity | reflexivity |].
  rewrite Hcount, Hnext. split; reflexivity.
Defined.

(** ** Forwarding: failures of other kinds *)

Section ForwardingEdges.

Context `{Library}.

Lemma forward_request_name (start_time : float) (env : post_env)
    (provider : AIProvider) (request : ChatRequest) :
  name (forward_request start_time env provider request).1 = name provider.
Proof.
  unfold forward_request, forward_body, forward_nonstreaming.
  repeat case_match; simplify_eq; done.
Qed.

(** Failures that no inner handler names are counted once: when the
    provider has no model (whatever the request and the upstream), when
    the post raises something other than a connection error or a
    timeout, or when a 200 answer carries a body that does not decode,
    the call raises 502 with the exception's text and the error counter
    goes up by exactly one. *)
Theorem forward_request_other_failures (start_time : float) (env : post_env)
    (provider : AIProvider) (request : ChatRequest) :
  (models provider = [] ->
     forward_request start_time env provider request
     = (set_error_count (error_count provider + 1) provider,
        inl (HTTPException 502 ("Provider error: " +:+ str_exn IndexError))))
  ∧ (∀ actual_model e,
       map_model_name (model request) provider = inr actual_model ->
       truthy (stream request) = false ->
       (post_outcome env = inl e
        ∧ (∀ msg, e ≠ ConnectError msg) ∧ (∀ msg, e ≠ TimeoutException msg))
       ∨ (∃ response, post_outcome env = inr response
                      ∧ post_status_code response = 200
                      ∧ post_json response = inl e) ->
       (forward_request start_time env provider request).2
       = inl (HTTPException 502 ("Provider error: " +:+ str_exn e))
       ∧ error_count (forward_request start_time env provider request).1
         = error_count provider + 1).
Proof.
  split.
  - intros Hnone. unfold forward_request, forward_body.
    by rewrite (map_model_name_without_models_aux _ _ Hnone).
  - intros actual_model e Hmodel Hstream Hfail.
    unfold forward_request, forward_body, forward_nonstreaming.
    rewrite Hmodel, Hstream.
    destruct Hfail as [(Hpost & Hc & Ht) | (response & Hpost & Hcode & Hjson)];
      rewrite Hpost.
    + destruct e; try done; [by destruct (Hc msg) | by destruct (Ht msg)].
    + rewrite decide_True by done. rewrite Hjson. done.
Qed.

End ForwardingEdges.

Section ForwardingEdgeExamples.

#[local] Existing Instance sample_library.

Lemma forward_request_other_failures_witness :
  (forward_request (PyFloat.lit 10)
     (sample_post (inl (OtherError "protocol error")))
     (set_error_count 2 (healthy deepseek)) (sample_request "gpt-4" false)).2
  = inl (HTTPException 502 "Provider error: protocol error")
  ∧ error_count
      (forward_request (PyFloat.lit 10)
         (sample_post (inl (OtherError "protocol error")))
         (set_error_count 2 (healthy deepseek))
         (sample_request "gpt-4" false)).1 = 3.
Proof.
  destruct (forward_request_other_failures (PyFloat.lit 10)
              (sample_post (inl (OtherError "protocol error")))
              (set_error_count 2 (healthy deepseek))
              (sample_request "gpt-4" false)) as [_ Hother].
  destruct (Hother "deepseek-chat" (OtherError "protocol error"))
    as [Hraised Hcount].
  - by vm_compute.
  - reflexivity.
  - left. split; [reflexivity|]. split; intros msg; discriminate.
  - rewrite Hraised, Hcount. split; reflexivity.
Defined.

End ForwardingEdgeExamples.

(** ** The handlers' book-keeping *)

Section HandlerBookkeeping.

Context `{Library}.

Lemma count_usage_inr (provider_name : string) (st st' : RouterStats) :
  count_usage provider_name st = inr st' ->
  stats_total_requests st' = stats_total_requests st
  ∧ successful_requests st' = successful_requests st
  ∧ failed_requests st' = failed_requests st
  ∧ ∃ n, provider_usage st !! provider_name = Some n
         ∧ provider_usage st' = <[provider_name := n + 1]> (provider_usage st).
Proof.
  unfold count_usage.
  destruct (provider_usage st !! provider_name) as [n|]; [|done].
  intros [= <-]. simpl. repeat split. by exists n.
Qed.

(** What the body of [chat_completions] does to the statistics, by
    outcome. *)
Lemma chat_completions_body_stats (st st' : RouterStats)
    (user_info : UserInfo) (providers : list AIProvider)
    (request : http_request) (env : handler_env)
    (selected : option AIProvider) (outcome : exn + response) :
  chat_completions_body st user_info providers request env
  = (st', selected, outcome) ->
  stats_total_requests st' = stats_total_requests st
  ∧ match outcome with
    | inr _ =>
        successful_requests st' = successful_requests st + 1
        ∧ failed_requests st' = failed_requests st
        ∧ ∃ p n, selected = Some p
                 ∧ provider_usage st !! name p = Some n
                 ∧ provider_usage st'
                   = <[name p := n + 1]> (provider_usage st)
    | inl e =>
        successful_requests st' = successful_requests st
        ∧ (failed_requests st' = failed_requests st
           ∨ failed_requests st' = failed_requests st + 1)
    end.
Proof.
  unfold chat_completions_body. intros Hbody.
  repeat case_match; simplify_eq; simpl; try (by auto);
    match goal with
    | Hu : count_usage _ _ = inr _ |- _ =>
        apply count_usage_inr in Hu as (Ht & Hs & Hf & n & Hn & Hu)
    end; simpl; rewrite ?Ht, ?Hs, ?Hf; try (by auto).
  all: split; [done|]; split; [done|]; split; [done|].
  all: try match goal with
       | Hfw : forward_request ?t ?e ?p ?r = (?p', _) |- _ =>
           pose proof (forward_request_name t e p r) as Hname;
           rewrite Hfw in Hname; simpl in Hname
       end.
  all: eexists _, n; split; [reflexivity|]; by rewrite ?Hname.
Qed.

Lemma chat_completions_asgi_body_stats (st st' : RouterStats)
    (providers : list AIProvider) (request : http_request) (env : handler_env)
    (selected : option AIProvider) (outcome : exn + response) :
  chat_completions_asgi_body st providers request env
  = (st', selected, outcome) ->
  stats_total_requests st' = stats_total_requests st
  ∧ match outcome with
    | inr r =>
        successful_requests st' = successful_requests st + 1
        ∧ failed_requests st' = failed_requests st
        ∧ is_direct r = true
        ∧ ∃ p n, selected = Some p
                 ∧ provider_usage st !! name p = Some n
                 ∧ provider_usage st'
                   = <[name p := n + 1]> (provider_usage st)
    | inl e =>
        successful_requests st' = successful_requests st
        ∧ failed_requests st' = failed_requests st
    end.
Proof.
  unfold chat_completions_asgi_body. intros Hbody.
  repeat case_match; unfold mret, exn_ret in *; simplify_eq; simpl;
    try (by auto);
    match goal with
    | Hu : count_usage _ _ = inr _ |- _ =>
        apply count_usage_inr in Hu as (Ht & Hs & Hf & n & Hn & Hu)
    end; simpl; rewrite ?Ht, ?Hs, ?Hf; try (by auto).
  do 4 (split; [done|]). by eexists _, n.
Qed.

(** Every request is billed, whatever becomes of it: both handlers add
    one to [total_requests] and run [update_user_stats] on the user's
    record (one more request today and in total, last request now)
    before anything can fail, so a request that ends in an error counts
    against the quota like one that succeeds. *)
Theorem handlers_always_bill_the_request
    (st : RouterStats) (user_info : UserInfo) (providers : list AIProvider)
    (request : http_request) (env : handler_env) :
  let billed st' (u' : UserInfo) :=
    stats_total_requests st' = stats_total_requests st + 1
    ∧ u' = update_user_stats (env_now env) user_info
    ∧ requests_today u' = requests_today user_info + 1 in
  billed (chat_completions st user_info providers request env).1.1.1
         (chat_completions st user_info providers request env).1.1.2
  ∧ billed (chat_completions_asgi st user_info providers request env).1.1.1
           (chat_completions_asgi st user_info providers request env).1.1.2.
Proof.
  intros billed. subst billed. cbv beta. split.
  - unfold chat_completions.
    destruct (chat_completions_body _ _ _ _ _) as [[st1 sel] out] eqn:Hbody.
    apply chat_completions_body_stats in Hbody as [Ht _].
    destruct out as [e|r]; [destruct e|]; simpl; by rewrite ?Ht.
  - unfold chat_completions_asgi.
    destruct (chat_completions_asgi_body _ _ _ _) as [[st1 sel] out] eqn:Hbody.
    apply chat_completions_asgi_body_stats in Hbody as [Ht _].
    destruct out as [e|r]; simpl; by rewrite ?Ht.
Qed.

(** A request is counted as successful or as failed, never as both, and
    the handlers raise nothing but HTTP errors: a response comes with
    one more success and the failures unchanged; an error comes with the
    successes unchanged and, on the main endpoint, one or two more
    failures (an HTTP error raised inside is counted where it is raised
    and again on the way out), on the ASGI endpoint exactly one more,
    the error being status 500 there whatever went wrong. *)
Theorem handlers_count_each_outcome
    (st st' : RouterStats) (user_info user_info' : UserInfo)
    (providers : list AIProvider) (request : http_request)
    (env : handler_env) (selected : option AIProvider)
    (outcome : exn + response) :
  (chat_completions st user_info providers request env
   = (st', user_info', selected, outcome) ->
   match outcome with
   | inr _ =>
       successful_requests st' = successful_requests st + 1
       ∧ failed_requests st' = failed_requests st
   | inl e =>
       (∃ code detail, e = HTTPException code detail)
       ∧ successful_requests st' = successful_requests st
       ∧ (failed_requests st' = failed_requests st + 1
          ∨ failed_requests st' = failed_requests st + 2)
   end)
  ∧ (chat_completions_asgi st user_info providers request env
     = (st', user_info', selected, outcome) ->
     match outcome with
     | inr _ =>
         successful_requests st' = successful_requests st + 1
         ∧ failed_requests st' = failed_requests st
     | inl e =>
         (∃ detail, e = HTTPException 500 detail)
         ∧ successful_requests st' = successful_requests st
         ∧ failed_requests st' = failed_requests st + 1
     end).
Proof.
  split.
  - unfold chat_completions.
    destruct (chat_completions_body _ _ _ _ _) as [[st1 sel] out] eqn:Hbody.
    apply chat_completions_body_stats in Hbody as [_ Hout].
    destruct out as [e|r].
    + destruct Hout as [Hs Hf]. simpl in Hs, Hf.
      destruct e; intros [= <- <- <- <-]; simpl;
        (split; [by eexists _, _|]); (split; [done|]); lia.
    + destruct Hout as (Hs & Hf & _). simpl in Hs, Hf.
      by intros [= <- <- <- <-].
  - unfold chat_completions_asgi.
    destruct (chat_completions_asgi_body _ _ _ _) as [[st1 sel] out] eqn:Hbody.
    apply chat_completions_asgi_body_stats in Hbody as [_ Hout].
    destruct out as [e|r].
    + destruct Hout as [Hs Hf]. simpl in Hs, Hf.
      intros [= <- <- <- <-]; simpl.
      split; [by eexists|]. split; [done|lia].
    + destruct Hout as (Hs & Hf & _). simpl in Hs, Hf.
      by intros [= <- <- <- <-].
Qed.

(** A response credits the provider that serves it: when a handler
    returns a response, the usage count of the selected provider's name
    has gone up by one and no other name's count has changed. *)
Theorem handlers_credit_the_selected_provider
    (handler : RouterStats -> UserInfo -> list AIProvider -> http_request ->
               handler_env ->
               RouterStats * UserInfo * option AIProvider * (exn + response))
    (st st' : RouterStats) (user_info user_info' : UserInfo)
    (providers : list AIProvider) (request : http_request)
    (env : handler_env) (selected : option AIProvider) (r : response) :
  handler = chat_completions ∨ handler = chat_completions_asgi ->
  handler st user_info providers request env
  = (st', user_info', selected, inr r) ->
  ∃ p n, selected = Some p
         ∧ provider_usage st !! name p = Some n
         ∧ provider_usage st' !! name p = Some (n + 1)
         ∧ ∀ other, other ≠ name p ->
             provider_usage st' !! other = provider_usage st !! other.
Proof.
  intros Hhandler Hrun.
  assert (∃ p n, selected = Some p
                 ∧ provider_usage st !! name p = Some n
                 ∧ provider_usage st'
                   = <[name p := n + 1]> (provider_usage st))
    as (p & n & -> & Hn & ->).
  { destruct Hhandler as [-> | ->].
    - unfold chat_completions in Hrun.
      destruct (chat_completions_body _ _ _ _ _) as [[st1 sel] out] eqn:Hbody.
      apply chat_completions_body_stats in Hbody as [_ Hout].
      destruct out as [e|r']; [by destruct e|].
      destruct Hout as (_ & _ & Husage). by simplify_eq.
    - unfold chat_completions_asgi in Hrun.
      destruct (chat_completions_asgi_body _ _ _ _) as [[st1 sel] out] eqn:Hbody.
      apply chat_completions_asgi_body_stats in Hbody as [_ Hout].
      destruct out as [e|r']; [done|].
      destruct Hout as (_ & _ & _ & Husage). by simplify_eq. }
  exists p, n. split; [done|]. split; [done|].
  split; [apply lookup_insert_eq|].
  intros other Hne. by apply lookup_insert_ne.
Qed.

End HandlerBookkeeping.

Section TransportChoice.

Context `{Library}.

(** The transport hint: when the main endpoint answers a request with a
    streaming response, that response is the direct relay exactly when
    the body's [x_use_asgi_streaming] value is true in Python's sense or
    the [x-use-asgi-streaming] header is the string "true" (either one
    suffices), and the buffered generator otherwise; the ASGI endpoint
    answers with the direct relay whatever the request says. *)
Theorem transport_follows_flag_or_header
    (st st' : RouterStats) (user_info user_info' : UserInfo)
    (providers : list AIProvider) (request : http_request)
    (env : handler_env) (selected : option AIProvider) (r : response)
    (request_data : gmap string json) :
  request_json request = inr request_data ->
  (chat_completions st user_info providers request env
   = (st', user_info', selected, inr r) ->
   is_streaming r = true ->
   is_direct r
   = json_truthy (default (JBool false)
                    (request_data !! "x_use_asgi_streaming"))
     || bool_decide (asgi_header request = Some "true"))
  ∧ (chat_completions_asgi st user_info providers request env
     = (st', user_info', selected, inr r) ->
     is_direct r = true).
Proof.
  intros Hjson. split.
  - unfold chat_completions.
    destruct (chat_completions_body _ _ _ _ _) as [[st1 sel] out] eqn:Hbody.
    destruct out as [e|r']; [by destruct e|].
    unfold mret, exn_ret. intros [= <- <- <- <-] Hstreaming.
    unfold chat_completions_body in Hbody. rewrite Hjson in Hbody.
    assert (∀ d : gmap string json,
              match d !! "stream" with
              | None => <["stream" := JBool true]> d
              | Some _ => d
              end !! "x_use_asgi_streaming" = d !! "x_use_asgi_streaming")
      as Hflag.
    { intros d. destruct (d !! "stream"); [done|].
      by rewrite lookup_insert_ne. }
    rewrite Hflag in Hbody.
    destruct (json_truthy _ || bool_decide _) eqn:Hchoice;
      repeat case_match; unfold mret, exn_ret in *; simplify_eq; done.
  - unfold chat_completions_asgi.
    destruct (chat_completions_asgi_body _ _ _ _) as [[st1 sel] out] eqn:Hbody.
    destruct out as [e|r']; [done|].
    unfold mret, exn_ret. intros [= <- <- <- <-].
    apply chat_completions_asgi_body_stats in Hbody as [_ Hout].
    by destruct Hout as (_ & _ & ? & _).
Qed.

(** The handler's additions to the routing block keep what is there:
    when the result carries a [_router_info] object, the four user
    fields are set inside it, every other field of the block and every
    other key of the result keep their values; when it carries none, the
    block is created; and when [_router_info] is not an object the
    addition raises. *)
Theorem add_user_info_keeps_routing_block (user_info : UserInfo)
    (result : gmap string json) :
  let user_keys :=
    ["user_id"; "requests_today"; "daily_limit"; "recommendation"] in
  (∀ info,
     result !! "_router_info" = Some (JObj info)
     ∨ (result !! "_router_info" = None ∧ info = ∅) ->
     ∃ result' info',
       add_user_info user_info result = inr result'
       ∧ result' !! "_router_info" = Some (JObj info')
       ∧ info' !! "user_id" = Some (JStr (user_id user_info))
       ∧ info' !! "requests_today" = Some (JInt (requests_today user_info))
       ∧ info' !! "daily_limit" = Some (JInt (daily_limit user_info))
       ∧ (∀ k, k ∉ user_keys -> info' !! k = info !! k)
       ∧ (∀ k, k ≠ "_router_info" -> result' !! k = result !! k))
  ∧ (∀ other,
       result !! "_router_info" = Some other ->
       (∀ info, other ≠ JObj info) ->
       ∃ e, add_user_info user_info result = inl e).
Proof.
  intros user_keys. split.
  - intros info Hinfo. unfold add_user_info.
    assert (match result !! "_router_info" with
            | None => <["_router_info" := JObj ∅]> result
            | Some _ => result
            end !! "_router_info" = Some (JObj info)
            ∧ ∀ k, k ≠ "_router_info" ->
                match result !! "_router_info" with
                | None => <["_router_info" := JObj ∅]> result
                | Some _ => result
                end !! k = result !! k) as [Hblock Hrest].
    { destruct Hinfo as [Hsome | [Hnone ->]].
      - by rewrite Hsome.
      - rewrite Hnone. split; [apply lookup_insert_eq|].
        intros k Hk. by rewrite lookup_insert_ne. }
    rewrite Hblock. eexists _, _. split; [reflexivity|].
    split; [apply lookup_insert_eq|].
    split; [repeat (rewrite lookup_insert_ne by done);
            by rewrite lookup_insert_eq|].
    split; [repeat (rewrite lookup_insert_ne by done);
            by rewrite lookup_insert_eq|].
    split; [repeat (rewrite lookup_insert_ne by done);
            by rewrite lookup_insert_eq|].
    split.
    + intros k Hk. subst user_keys.
      rewrite !not_elem_of_cons in Hk. destruct Hk as (? & ? & ? & ? & _).
      by rewrite !lookup_insert_ne.
    + intros k Hk. rewrite lookup_insert_ne by done. by apply Hrest.
  - intros other Hother Hnot. unfold add_user_info. rewrite Hother.
    rewrite Hother. destruct other; try by eexists.
    by destruct (Hnot o).
Qed.

End TransportChoice.

Section HandlerBookkeepingExamples.

#[local] Existing Instance sample_library.

Lemma handlers_count_each_outcome_witness :
  let request := mkHttpRequest (inl (ValueError "malformed JSON")) None in
  failed_requests
    (chat_completions initial_stats shared_user
       (map healthy initial_providers) request sample_env).1.1.1
  = 1
  ∨ failed_requests
      (chat_completions initial_stats shared_user
         (map healthy initial_providers) request sample_env).1.1.1
    = 2.
Proof.
  intros request.
  destruct (chat_completions initial_stats shared_user
              (map healthy initial_providers) request sample_env)
    as [[[st' u'] sel] out] eqn:Hrun.
  destruct (handlers_count_each_outcome initial_stats st' shared_user u'
              (map healthy initial_providers) request sample_env sel out)
    as [Hmain _].
  specialize (Hmain Hrun).
  assert (∃ e, out = inl e) as [e ->]
    by (vm_compute in Hrun; simplify_eq; by eexists).
  destruct Hmain as (_ & _ & Hfailed). exact Hfailed.
Defined.

Lemma handlers_credit_witness :
  ∃ p n,
    (chat_completions initial_stats shared_user
       (map healthy initial_providers) (sample_http_request true)
       sample_env).1.2 = Some p
    ∧ provider_usage initial_stats !! name p = Some n
    ∧ provider_usage
        (chat_completions initial_stats shared_user
           (map healthy initial_providers) (sample_http_request true)
           sample_env).1.1.1 !! name p = Some (n + 1).
Proof.
  destruct (chat_completions initial_stats shared_user
              (map healthy initial_providers) (sample_http_request true)
              sample_env) as [[[st' u'] sel] out] eqn:Hrun.
  assert (∃ r, out = inr r) as [r ->]
    by (vm_compute in Hrun; simplify_eq; by eexists).
  destruct (handlers_credit_the_selected_provider chat_completions
              initial_stats st' shared_user u' (map healthy initial_providers)
              (sample_http_request true) sample_env sel r
              (or_introl eq_refl) Hrun) as (p & n & -> & Hn & Hn' & _).
  exists p, n. split; [reflexivity|]. split; [exact Hn | exact Hn'].
Defined.

Lemma transport_follows_flag_witness :
  ∃ r,
    (chat_completions initial_stats shared_user
       (map healthy initial_providers)
       (mkHttpRequest (inr (list_to_map [("model", JStr "gpt-4")]))
                      (Some "true"))
       sample_env).2 = inr r
    ∧ is_direct r = true.
Proof.
  set (request := mkHttpRequest (inr (list_to_map [("model", JStr "gpt-4")]))
                                (Some "true")).
  destruct (chat_completions initial_stats shared_user
              (map healthy initial_providers) request sample_env)
    as [[[st' u'] sel] out] eqn:Hrun.
  assert (∃ r, out = inr r ∧ is_streaming r = true) as (r & -> & Hstreaming)
    by (vm_compute in Hrun; simplify_eq; by eexists).
  destruct (transport_follows_flag_or_header initial_stats st' shared_user u'
              (map healthy initial_providers) request sample_env sel r
              (list_to_map [("model", JStr "gpt-4")]) eq_refl) as [Hmain _].
  exists r. split; [done|].
  rewrite (Hmain Hrun Hstreaming). reflexivity.
Defined.

Lemma add_user_info_witness :
  ∃ result' info',
    add_user_info shared_user
      (<["_router_info" := router_info deepseek (PyFloat.lit 2)
                             "2024-12-20T08:00:02"]> sample_body)
    = inr result'
    ∧ result' !! "_router_info" = Some (JObj info')
    ∧ info' !! "provider" = Some (JStr "deepseek")
    ∧ info' !! "user_id" = Some (JStr "shared_user")
    ∧ result' !! "id" = Some (JStr "chatcmpl-1").
Proof.
  destruct (add_user_info_keeps_routing_block shared_user
              (<["_router_info" := router_info deepseek (PyFloat.lit 2)
                                     "2024-12-20T08:00:02"]> sample_body))
    as [Hadd _].
  edestruct Hadd as (result' & info' & Hrun & Hblock & Huser & _ & _ & Hinfo
                     & Hrest).
  { left. apply lookup_insert_eq. }
  exists result', info'. split; [exact Hrun|]. split; [exact Hblock|].
  split; [|split; [exact Huser|]].
  - rewrite Hinfo; [by vm_compute|].
    rewrite !not_elem_of_cons. repeat split; try discriminate.
    apply not_elem_of_nil.
  - rewrite Hrest by discriminate. by vm_compute.
Defined.

End HandlerBookkeepingExamples.
